(** * The py-arrakis cookbook, embedded

    [examples/cookbook.py] drives a remote sandbox-VM service through the
    [py_arrakis] SDK.  The script is embedded here as computations in a
    small state-and-error monad that also records what the script does
    (lines printed, sleeps, HTTP exchanges), so that the statements of the
    design document can be read off the recorded trace.

    The SDK package itself ([SandboxManager], [Sandbox]) is not part of the
    sources; its methods are modelled from the design document and marked
    as such. *)

From Stdlib Require Import List String Ascii ZArith Bool Lia.
Import ListNotations.

Set Warnings "-register-all".

Local Open Scope Z_scope.
Local Open Scope list_scope.

(* ================================================================== *)
(** ** Python values *)

(** The values [response.json()] can produce.  Numbers are kept as their
    literal: the cookbook never computes with one. *)
Inductive pyval : Type :=
| PNone
| PBool (b : bool)
| PNum (literal : string)
| PStr (s : string)
| PList (items : list pyval)
| PDict (items : list (string * pyval)).

(** A [requests.Response] as far as the cookbook looks at it: the status
    line and what [.json()] gives ([None] when the body is not JSON). *)
Record response : Type := mkResponse {
  status_code : Z;
  json_body : option pyval
}.

(** Exceptions.  [HTTPError] is [requests.HTTPError] with its [response]
    attribute (which the library allows to be [None]); [ConnectionError]
    is the transport failure of [requests]; the next group are the
    built-in errors the cookbook's own expressions can raise;
    [KeyboardInterrupt] and [SystemExit] derive from [BaseException]
    only. *)
Inductive exn : Type :=
| HTTPError (resp : option response)
| ConnectionError
| JSONDecodeError
| KeyError (key : string)
| TypeError
| AttributeError
| IndexError
| OtherException (name : string)
| KeyboardInterrupt
| SystemExit.

(** [isinstance(e, requests.HTTPError)] *)
Definition is_HTTPError (e : exn) : bool :=
  match e with
  | HTTPError _ => true
  | _ => false
  end.

(** [isinstance(e, Exception)] *)
Definition is_Exception (e : exn) : bool :=
  match e with
  | KeyboardInterrupt | SystemExit => false
  | _ => true
  end.

Inductive outcome (A : Type) : Type :=
| Ok (a : A)
| Err (e : exn).
Arguments Ok {A} a.
Arguments Err {A} e.

(* ------------------------------------------------------------------ *)
(** *** The dictionary and sequence operations the cookbook uses *)

Fixpoint dict_lookup (items : list (string * pyval)) (k : string) : option pyval :=
  match items with
  | [] => None
  | (k', v) :: rest => if String.eqb k' k then Some v else dict_lookup rest k
  end.

(** [v.get(k, default)]: only a dict has [get]. *)
Definition py_get (v : pyval) (k : string) (default : pyval) : outcome pyval :=
  match v with
  | PDict items =>
      match dict_lookup items k with
      | Some x => Ok x
      | None => Ok default
      end
  | _ => Err AttributeError
  end.

(** [v[k]] for a string key [k]. *)
Definition py_getitem (v : pyval) (k : string) : outcome pyval :=
  match v with
  | PDict items =>
      match dict_lookup items k with
      | Some x => Ok x
      | None => Err (KeyError k)
      end
  | _ => Err TypeError
  end.

Definition is_str (k : string) (v : pyval) : bool :=
  match v with
  | PStr s => String.eqb s k
  | _ => false
  end.

(** [k in v] for a string [k]. *)
Definition py_contains (k : string) (v : pyval) : outcome bool :=
  match v with
  | PDict items =>
      match dict_lookup items k with
      | Some _ => Ok true
      | None => Ok false
      end
  | PList items => Ok (existsb (is_str k) items)
  | PStr s =>
      match String.index 0 k s with
      | Some _ => Ok true
      | None => Ok false
      end
  | _ => Err TypeError
  end.

Fixpoint chars_of (s : string) : list pyval :=
  match s with
  | EmptyString => []
  | String c rest => PStr (String c EmptyString) :: chars_of rest
  end.

(** What [for x in v] walks through (a string is walked byte by byte
    here). *)
Definition py_iter (v : pyval) : outcome (list pyval) :=
  match v with
  | PList items => Ok items
  | PDict items => Ok (map (fun kv => PStr (fst kv)) items)
  | PStr s => Ok (chars_of s)
  | _ => Err TypeError
  end.

(** [v == s] for a string literal [s]. *)
Definition py_eq_str (v : pyval) (s : string) : bool := is_str s v.

(** [response.json()], also when [response] is [None]. *)
Definition response_json (r : option response) : outcome pyval :=
  match r with
  | None => Err AttributeError
  | Some r =>
      match json_body r with
      | Some v => Ok v
      | None => Err JSONDecodeError
      end
  end.

(* ================================================================== *)
(** ** HTTP and the SDK's calls *)

Inductive http_method : Type := GET | POST | DELETE.

Record request : Type := mkRequest {
  rq_method : http_method;
  rq_url : string;
  rq_body : option pyval
}.

(** What the transport gives back: no answer at all, or a status and the
    JSON it carried. *)
Inductive http_result : Type :=
| Unreachable
| Reply (status : Z) (body : pyval).

Definition is_2xx (status : Z) : bool := (200 <=? status) && (status <=? 299).

(** The seven entry points of the SDK with their arguments. *)
Inductive api_call : Type :=
| ListAll
| StartSandbox (name : string)
| Restore (name : string) (snapshot_id : pyval)
| List_ (name : string)
| RunCmd (name : string) (cmd : string)
| Snapshot (name : string) (tag : string)
| Destroy (name : string).

(** One piece of a printed line: literal text, or [str()] of a value. *)
Inductive piece : Type :=
| Lit (s : string)
| Fmt (v : pyval)
| FmtExn (e : exn).

(** What a run does, in order: a line printed, a [time.sleep], or one
    HTTP exchange made on behalf of a call of the SDK (the request sent
    and what came back). *)
Inductive event : Type :=
| EvPrint (line : list piece)
| EvSleep (seconds : Z)
| EvHttp (c : api_call) (req : request) (res : http_result).

(* ================================================================== *)
(** ** Constants of the cookbook *)

Definition BASE_URL : string := "http://localhost:7000".

Definition VM_START_WAIT_TIME_SECONDS : Z := 3.

Definition ESC : string := String (ascii_of_nat 27) EmptyString.
Definition RED : string := (ESC ++ "[91m")%string.
Definition RESET : string := (ESC ++ "[0m")%string.

(* ================================================================== *)
(** ** The monad: server state, errors, trace *)

(** The service is external: any state space and any reaction to a
    request.  Its wire format is its own business too: which path a call
    goes to, what it carries, and how a listing names its VMs. *)
Class Service : Type := mkService {
  server : Type;
  serve : server -> request -> server * http_result;
  path_of : api_call -> string;
  body_of : api_call -> option pyval;
  vm_names : pyval -> list string
}.

Declare Scope py_scope.
Delimit Scope py_scope with py.

Section Cookbook.

Context {service : Service}.

Record result (A : Type) : Type := mkResult {
  out : outcome A;
  srv : server;
  trace : list event
}.
Arguments mkResult {A}.
Arguments out {A}.
Arguments srv {A}.
Arguments trace {A}.

Definition M (A : Type) : Type := server -> result A.

Definition ret {A} (a : A) : M A := fun s => mkResult (Ok a) s [].

Definition raise {A} (e : exn) : M A := fun s => mkResult (Err e) s [].

Definition bind {A B} (m : M A) (f : A -> M B) : M B :=
  fun s =>
    let r := m s in
    match out r with
    | Ok a =>
        let r' := f a (srv r) in
        mkResult (out r') (srv r') (trace r ++ trace r')
    | Err e => mkResult (Err e) (srv r) (trace r)
    end.

Definition lift {A} (o : outcome A) : M A :=
  match o with
  | Ok a => ret a
  | Err e => raise e
  end.

Definition emit (e : event) : M unit := fun s => mkResult (Ok tt) s [e].

Definition print (line : list piece) : M unit := emit (EvPrint line).

Definition sleep (seconds : Z) : M unit := emit (EvSleep seconds).

(** One blocking HTTP exchange, made for the call [c]. *)
Definition http (c : api_call) (req : request) : M http_result :=
  fun s =>
    let (s', r) := serve s req in
    mkResult (Ok r) s' [EvHttp c req r].

(** [try: body  except ...: handler]: [handler e] is [None] when no
    clause matches [e].  An exception raised by the handler itself is not
    caught by the sibling clauses. *)
Definition try_except {A} (body : M A) (handler : exn -> option (M A)) : M A :=
  fun s =>
    let r := body s in
    match out r with
    | Ok a => r
    | Err e =>
        match handler e with
        | Some h =>
            let r' := h (srv r) in
            mkResult (out r') (srv r') (trace r ++ trace r')
        | None => r
        end
    end.

Fixpoint for_each {X} (xs : list X) (body : X -> M unit) : M unit :=
  match xs with
  | [] => ret tt
  | x :: rest => bind (body x) (fun _ => for_each rest body)
  end.

Notation "x <- m ;; k" := (bind m (fun x => k))
  (at level 61, m at next level, right associativity) : py_scope.
Notation "m ;; k" := (bind m (fun _ => k))
  (at level 61, right associativity) : py_scope.
Local Open Scope py_scope.

(** [print("text")] *)
Definition say (text : string) : M unit := print [Lit text].

(* ================================================================== *)
(** ** The SDK *)

(** Modelled from the spec: the package [py_arrakis] is not in the
    sources.  The manager is a stateless facade holding only the base
    URL. *)
Record SandboxManager : Type := mkSandboxManager {
  base_url : string
}.

(** Modelled from the spec: the handle of [py_arrakis] holds a name and a
    reference to the base URL of its manager. *)
Record Sandbox : Type := mkSandbox {
  name : string;
  sandbox_url : string
}.

(** Modelled from the spec: the HTTP method of each call (listing and
    details are GET, destroy is DELETE, the others POST). *)
Definition method_of (c : api_call) : http_method :=
  match c with
  | ListAll => GET
  | StartSandbox _ => POST
  | Restore _ _ => POST
  | List_ _ => GET
  | RunCmd _ _ => POST
  | Snapshot _ _ => POST
  | Destroy _ => DELETE
  end.

Definition request_of (base : string) (c : api_call) : request :=
  mkRequest (method_of c) (base ++ path_of c)%string (body_of c).

(** Modelled from the spec: the two error kinds of the SDK.  They are the
    classes the cookbook's handler names: the API-level failure is a
    [requests.HTTPError] with the response attached, the transport
    failure any other [Exception] of [requests]. *)
Definition ApiError (status : Z) (body : pyval) : exn :=
  HTTPError (Some (mkResponse status (Some body))).

Definition ServiceUnavailable : exn := ConnectionError.

(** Modelled from the spec: what every method of [py_arrakis] does: a
    single HTTP call, the parsed JSON on a 2xx answer, [ApiError] on any
    other answer, [ServiceUnavailable] when there is none. *)
Definition api (base : string) (c : api_call) : M pyval :=
  r <- http c (request_of base c) ;;
  match r with
  | Unreachable => raise ServiceUnavailable
  | Reply status body =>
      if is_2xx status then ret body else raise (ApiError status body)
  end.

(** Modelled from the spec: [SandboxManager.list_all()] of [py_arrakis],
    a GET that returns a sequence of handles, one per VM listed. *)
Definition list_all (m : SandboxManager) : M (list Sandbox) :=
  body <- api (base_url m) ListAll ;;
  ret (map (fun n => mkSandbox n (base_url m)) (vm_names body)).

(** Modelled from the spec: [SandboxManager.start_sandbox(name)] of
    [py_arrakis], a POST that returns a handle bound to [name]. *)
Definition start_sandbox (m : SandboxManager) (n : string) : M Sandbox :=
  api (base_url m) (StartSandbox n) ;;
  ret (mkSandbox n (base_url m)).

(** Modelled from the spec: [SandboxManager.restore(name, snapshot_id)]
    of [py_arrakis], a POST that returns a handle. *)
Definition restore (m : SandboxManager) (n : string) (snapshot_id : pyval)
  : M Sandbox :=
  api (base_url m) (Restore n snapshot_id) ;;
  ret (mkSandbox n (base_url m)).

(** Modelled from the spec: [Sandbox.list()] of [py_arrakis], a GET of
    the details of this VM. *)
Definition Sandbox_list (sb : Sandbox) : M pyval :=
  api (sandbox_url sb) (List_ (name sb)).

(** Modelled from the spec: [Sandbox.run_cmd(cmd)] of [py_arrakis], a
    POST of a command string that returns the captured output. *)
Definition run_cmd (sb : Sandbox) (cmd : string) : M pyval :=
  api (sandbox_url sb) (RunCmd (name sb) cmd).

(** Modelled from the spec: [Sandbox.snapshot(tag)] of [py_arrakis], a
    POST that returns a snapshot identifier. *)
Definition snapshot (sb : Sandbox) (tag : string) : M pyval :=
  api (sandbox_url sb) (Snapshot (name sb) tag).

(** Modelled from the spec: [Sandbox.destroy()] of [py_arrakis], a
    DELETE. *)
Definition destroy (sb : Sandbox) : M pyval :=
  api (sandbox_url sb) (Destroy (name sb)).

(** Modelled from the spec: [Sandbox.__enter__] of [py_arrakis]; entering
    a scoped block returns the handle. *)
Definition __enter__ (sb : Sandbox) : M Sandbox := ret sb.

(** Modelled from the spec: [Sandbox.__exit__] of [py_arrakis]; it
    invokes [destroy()].  Nothing says that it swallows the error of the
    block, so it answers false. *)
Definition __exit__ (sb : Sandbox) : M bool :=
  destroy sb ;;
  ret false.

(** The [with EXPR as x: BODY] statement of Python over these two
    methods: [__exit__] runs on every way out of the body; an exception
    of the body goes on unless [__exit__] answers true; an exception of
    [__exit__] itself replaces it. *)
Definition with_ (expr : M Sandbox) (body : Sandbox -> M unit) : M unit :=
  mgr <- expr ;;
  x <- __enter__ mgr ;;
  fun s =>
    let r := body x s in
    let r' := __exit__ mgr (srv r) in
    match out r' with
    | Err e' => mkResult (Err e') (srv r') (trace r ++ trace r')
    | Ok suppress =>
        match out r with
        | Ok _ => mkResult (Ok tt) (srv r') (trace r ++ trace r')
        | Err e =>
            if suppress
            then mkResult (Ok tt) (srv r') (trace r ++ trace r')
            else mkResult (Err e) (srv r') (trace r ++ trace r')
        end
    end.

(** [xs[i]] on a list. *)
Definition py_index {X} (xs : list X) (i : nat) : outcome X :=
  match nth_error xs i with
  | Some x => Ok x
  | None => Err IndexError
  end.

(** The truth value of a list: [not xs]. *)
Definition py_not {X} (xs : list X) : bool :=
  match xs with
  | [] => true
  | _ :: _ => false
  end.

(* ================================================================== *)
(** ** examples/cookbook.py *)

Definition NL : string := String (ascii_of_nat 10) EmptyString.

Definition basic_usage_example : M unit :=
  say "=== Basic Usage Example ===" ;;
  let sandbox_manager := mkSandboxManager BASE_URL in
  say "Listing all VMs:" ;;
  sandboxes <- list_all sandbox_manager ;;
  for_each sandboxes
    (fun sandbox => print [Lit "  - "; Fmt (PStr (name sandbox))]) ;;
  if py_not sandboxes then
    say "Starting a new VM..." ;;
    new_sandbox <- start_sandbox sandbox_manager "example-vm" ;;
    print [Lit "Started VM: "; Fmt (PStr (name new_sandbox))] ;;
    say "Waiting for VM to initialize..." ;;
    sleep VM_START_WAIT_TIME_SECONDS
  else
    new_sandbox <- lift (py_index sandboxes 0) ;;
    ret tt.

(** One line of the port-forward listing; the three subscripts are
    evaluated left to right before anything is printed. *)
Definition print_port_forward (pf : pyval) : M unit :=
  host_port <- lift (py_getitem pf "host_port") ;;
  guest_port <- lift (py_getitem pf "guest_port") ;;
  description <- lift (py_getitem pf "description") ;;
  print [Lit "    Host:"; Fmt host_port; Lit " → Guest:"; Fmt guest_port;
         Lit " ("; Fmt description; Lit ")"].

Definition vm_management_example : M unit :=
  say "=== VM Management Example ===" ;;
  let sandbox_manager := mkSandboxManager BASE_URL in
  say "Starting a new VM..." ;;
  sandbox <- start_sandbox sandbox_manager "lifecycle-example" ;;
  print [Lit "Started VM: "; Fmt (PStr (name sandbox))] ;;
  say "Waiting for VM to initialize..." ;;
  sleep VM_START_WAIT_TIME_SECONDS ;;
  say "Getting VM details:" ;;
  details <- Sandbox_list sandbox ;;
  status <- lift (py_get details "status" PNone) ;;
  print [Lit "  Status: "; Fmt status] ;;
  ip <- lift (py_get details "ip" PNone) ;;
  print [Lit "  IP: "; Fmt ip] ;;
  tap <- lift (py_get details "tap_device_name" PNone) ;;
  print [Lit "  Tap Device: "; Fmt tap] ;;
  has_forwards <- lift (py_contains "port_forwards" details) ;;
  (if has_forwards then
     say "  Port Forwards:" ;;
     forwards <- lift (py_getitem details "port_forwards") ;;
     pfs <- lift (py_iter forwards) ;;
     for_each pfs print_port_forward
   else ret tt) ;;
  say "Destroying the VM..." ;;
  destroy sandbox ;;
  say "VM destroyed".

(** [print(f"{label}{result.get('output', '')}")] *)
Definition print_output (label : string) (result : pyval) : M unit :=
  output <- lift (py_get result "output" (PStr "")) ;;
  print [Lit label; Fmt output].

Definition snapshot_example : M unit :=
  say "=== Snapshot Example ===" ;;
  let sandbox_manager := mkSandboxManager BASE_URL in
  let sandbox_name := "snapshot-example"%string in
  say "Starting a test VM for snapshots..." ;;
  sandbox <- start_sandbox sandbox_manager sandbox_name ;;
  say "Waiting for VM to initialize..." ;;
  sleep VM_START_WAIT_TIME_SECONDS ;;
  say "Modifying VM state before snapshot..." ;;
  result <- run_cmd sandbox "echo 'test data before snapshot' > /tmp/testfile" ;;
  print_output "Command output: " result ;;
  say "Creating a snapshot..." ;;
  snapshot_id <- snapshot sandbox "initial-state" ;;
  print [Lit "Created snapshot with ID: "; Fmt snapshot_id] ;;
  say "Modifying VM state after snapshot..." ;;
  result <- run_cmd sandbox "echo 'test data after snapshot' > /tmp/testfile" ;;
  print_output "Command output: " result ;;
  say "Verifying file was created..." ;;
  result <- run_cmd sandbox "cat /tmp/testfile" ;;
  print_output "File content: " result ;;
  say "Destroying the sandbox..." ;;
  destroy sandbox ;;
  say "Restoring from snapshot..." ;;
  sandbox <- restore sandbox_manager sandbox_name snapshot_id ;;
  say "Snapshot restored" ;;
  say "Verifying file state after restore..." ;;
  result <- run_cmd sandbox "cat /tmp/testfile" ;;
  output <- lift (py_getitem result "output") ;;
  (if py_eq_str output ("test data before snapshot" ++ NL)%string then
     say "File content is correct after restore (as expected)"
   else
     print [Lit "Unexpected result: "; Fmt result]) ;;
  say "Cleaning up..." ;;
  destroy sandbox ;;
  say "VM destroyed".

(** The body of the [with] block of [context_manager_example]. *)
Definition context_manager_body (sandbox : Sandbox) : M unit :=
  print [Lit "Started VM: "; Fmt (PStr (name sandbox))] ;;
  say "Waiting for VM to initialize..." ;;
  sleep VM_START_WAIT_TIME_SECONDS ;;
  say "Running commands in the VM..." ;;
  result <- run_cmd sandbox "echo 'Hello from sandbox context manager'" ;;
  print_output "Command output: " result ;;
  say "Exiting context - VM will be destroyed automatically".

Definition context_manager_example : M unit :=
  say "=== Context Manager Example ===" ;;
  let sandbox_manager := mkSandboxManager BASE_URL in
  say "Starting a VM using context manager (will auto-destroy when done)..." ;;
  with_ (start_sandbox sandbox_manager "auto-cleanup-example")
        context_manager_body ;;
  say "VM has been destroyed automatically".

(** The [except requests.HTTPError as e] clause. *)
Definition on_http_error {A} (e : exn) : M (option A) :=
  let response :=
    match e with
    | HTTPError r => r
    | _ => None
    end in
  error_data <- lift (response_json response) ;;
  error <- lift (py_getitem error_data "error") ;;
  message <- lift (py_getitem error "message") ;;
  print [Fmt (PStr RED); Lit "API Error: "; Fmt message; Fmt (PStr RESET)] ;;
  ret None.

(** The [except Exception as e] clause. *)
Definition on_exception {A} (e : exn) : M (option A) :=
  print [Fmt (PStr RED); Lit "Error: "; FmtExn e; Fmt (PStr RESET)] ;;
  print [Fmt (PStr RED);
         Lit "Make sure the Arrakis server is running and accessible at ";
         Fmt (PStr BASE_URL); Fmt (PStr RESET)] ;;
  ret None.

(** The value is [Some v] for [return func()] and [None] for falling off
    the end of a handler, which is Python's [None]. *)
Definition wrap_with_error_handling {A} (func : M A) : M (option A) :=
  try_except
    (v <- func ;; ret (Some v))
    (fun e =>
       if is_HTTPError e then Some (on_http_error e)
       else if is_Exception e then Some (on_exception e)
       else None).

(** The [if __name__ == "__main__"] block. *)
Definition main : M unit :=
  say "Py-Arrakis SDK Cookbook" ;;
  say "======================" ;;
  say "This script demonstrates how to use the py-arrakis SDK to interact with Arrakis VMs." ;;
  print [Lit "Make sure the Arrakis server is running at"; Lit " ";
         Fmt (PStr BASE_URL)] ;;
  say "Running Basic Usage Example..." ;;
  wrap_with_error_handling basic_usage_example ;;
  say "Running VM Management Example..." ;;
  wrap_with_error_handling vm_management_example ;;
  say "Running Snapshot Example..." ;;
  wrap_with_error_handling snapshot_example ;;
  say "Running Context Manager Example..." ;;
  wrap_with_error_handling context_manager_example ;;
  say "All examples completed.".

End Cookbook.

Arguments mkResult {service A}.
Arguments out {service A}.
Arguments srv {service A}.
Arguments trace {service A}.

Notation "x <- m ;; k" := (bind m (fun x => k))
  (at level 61, m at next level, right associativity) : py_scope.
Notation "m ;; k" := (bind m (fun _ => k))
  (at level 61, right associativity) : py_scope.

(* ================================================================== *)
(** ** Reading a trace *)

Definition is_print (e : event) : bool :=
  match e with
  | EvPrint _ => true
  | _ => false
  end.

(** The exchange by which a [start_sandbox] succeeds. *)
Definition started (e : event) : bool :=
  match e with
  | EvHttp (StartSandbox _) _ (Reply status _) => is_2xx status
  | _ => false
  end.

(** Printing aside, the first thing in [t] is the fixed sleep. *)
Fixpoint sleeps_first (t : list event) : bool :=
  match t with
  | EvPrint _ :: rest => sleeps_first rest
  | EvSleep seconds :: _ => seconds =? VM_START_WAIT_TIME_SECONDS
  | _ => false
  end.

(** Every successful start in [t] is followed by the fixed sleep. *)
Fixpoint waits_after_start (t : list event) : bool :=
  match t with
  | [] => true
  | e :: rest =>
      (if started e then sleeps_first rest else true) && waits_after_start rest
  end.

(** The calls of the SDK behind the exchanges of a trace, in order. *)
Fixpoint calls (t : list event) : list api_call :=
  match t with
  | [] => []
  | EvHttp c _ _ :: rest => c :: calls rest
  | _ :: rest => calls rest
  end.

Definition is_destroy_of (n : string) (c : api_call) : bool :=
  match c with
  | Destroy n' => String.eqb n' n
  | _ => false
  end.

(** How often [destroy()] went out for the VM named [n]. *)
Definition destroys (n : string) (t : list event) : nat :=
  List.length (filter (is_destroy_of n) (calls t)).

(** [P past e] holds of every event [e] of [t], [past] being what came
    before it. *)
Fixpoint each_after (P : list event -> event -> Prop)
    (past t : list event) : Prop :=
  match t with
  | [] => True
  | e :: rest => P past e /\ each_after P (past ++ [e]) rest
  end.

(** A start is only ever made for "example-vm", and only after a listing
    that came back with no VM in it. *)
Definition start_only_when_empty {service : Service}
    (past : list event) (e : event) : Prop :=
  match e with
  | EvHttp (StartSandbox n) _ _ =>
      n = "example-vm"%string /\
      exists req status body,
        In (EvHttp ListAll req (Reply status body)) past /\
        is_2xx status = true /\
        vm_names body = []
  | _ => True
  end.

(** A restore is only ever made for "snapshot-example", the name the
    sandbox was started under, with the identifier a successful
    [snapshot("initial-state")] of that sandbox gave, and after a
    successful [destroy()] of that sandbox. *)
Definition restore_after_destroy (past : list event) (e : event) : Prop :=
  match e with
  | EvHttp (Restore n id) _ _ =>
      n = "snapshot-example"%string /\
      (exists req status body,
          In (EvHttp (StartSandbox n) req (Reply status body)) past /\
          is_2xx status = true) /\
      (exists req status,
          In (EvHttp (Snapshot "snapshot-example" "initial-state") req
                (Reply status id)) past /\
          is_2xx status = true) /\
      (exists req status body,
          In (EvHttp (Destroy "snapshot-example") req (Reply status body))
             past /\
          is_2xx status = true)
  | _ => True
  end.

(** The server-supplied message of an error body: [body['error']['message']]. *)
Definition error_message (body : pyval) : outcome pyval :=
  match py_getitem body "error" with
  | Ok error => py_getitem error "message"
  | Err e => Err e
  end.

(** The two error kinds, as the clauses of the handler tell them apart:
    an [Exception] that is not a [requests.HTTPError] (the server cannot
    be reached: [ServiceUnavailable] is one), or a [requests.HTTPError]
    whose response carries a structured message (an [ApiError] under the
    error convention is one). *)
Inductive error_kind : exn -> Prop :=
| transport_failure e :
    is_Exception e = true ->
    is_HTTPError e = false ->
    error_kind e
| api_failure r body message :
    json_body r = Some body ->
    error_message body = Ok message ->
    error_kind (HTTPError (Some r)).

(** The coloured line of the [requests.HTTPError] clause. *)
Definition api_error_line (message : pyval) : event :=
  EvPrint [Fmt (PStr RED); Lit "API Error: "; Fmt message; Fmt (PStr RESET)].

(** The two coloured lines of the [Exception] clause. *)
Definition error_lines (e : exn) : list event :=
  [EvPrint [Fmt (PStr RED); Lit "Error: "; FmtExn e; Fmt (PStr RESET)];
   EvPrint [Fmt (PStr RED);
            Lit "Make sure the Arrakis server is running and accessible at ";
            Fmt (PStr BASE_URL); Fmt (PStr RESET)]].

(** A line is coloured when it opens with [RED] and closes with [RESET]. *)
Definition coloured (e : event) : Prop :=
  exists middle,
    e = EvPrint (Fmt (PStr RED) :: middle ++ [Fmt (PStr RESET)]).

(** The four examples the script runs. *)
Definition examples {service : Service} : list (M unit) :=
  [basic_usage_example; vm_management_example; snapshot_example;
   context_manager_example].

(** What one method of the SDK has to do when called at server state
    [s]: a single exchange, for the call [c] with its request, and then
    the value built from the parsed JSON, or the error. *)
Definition single_exchange {service : Service} {A}
    (m : M A) (base : string) (c : api_call) (value : pyval -> A) : Prop :=
  forall s,
    let req := request_of base c in
    let res := snd (serve s req) in
    trace (m s) = [EvHttp c req res] /\
    srv (m s) = fst (serve s req) /\
    out (m s) =
      match res with
      | Unreachable => Err ServiceUnavailable
      | Reply status body =>
          if is_2xx status then Ok (value body) else Err (ApiError status body)
      end.

(** The state the server is in after the exchanges of [t], starting
    from [s]: only a request changes it. *)
Fixpoint replay {service : Service} (s : server) (t : list event) : server :=
  match t with
  | [] => s
  | EvHttp _ req _ :: rest => replay (fst (serve s req)) rest
  | _ :: rest => replay s rest
  end.

(** The postcondition calculus of the monad: whatever the server does,
    [post] holds of the outcome and the trace of [m], and the server ends
    in the state the exchanges of the trace left it in. *)
Definition wp {service : Service} {A}
    (m : M A) (post : outcome A -> list event -> Prop) : Prop :=
  forall s,
    post (out (m s)) (trace (m s)) /\
    srv (m s) = replay s (trace (m s)).

(* ------------------------------------------------------------------ *)
(** *** A scripted double of the service

    It answers the requests in turn from a list of canned answers and is
    unreachable once the list is used up; the concrete cases below run the
    cookbook against it. *)

Definition scripted_serve (answers : list http_result) (_ : request)
  : list http_result * http_result :=
  match answers with
  | [] => ([], Unreachable)
  | r :: rest => (rest, r)
  end.

Definition scripted_path (c : api_call) : string :=
  match c with
  | ListAll => "/vms"
  | StartSandbox _ => "/vms"
  | Restore _ _ => "/vms"
  | List_ n => "/vms/" ++ n
  | RunCmd n _ => "/vms/" ++ n ++ "/cmd"
  | Snapshot n _ => "/vms/" ++ n ++ "/snapshots"
  | Destroy n => "/vms/" ++ n
  end%string.

Definition scripted_body (c : api_call) : option pyval :=
  match c with
  | ListAll => None
  | StartSandbox n => Some (PDict [("name", PStr n)])
  | Restore n id => Some (PDict [("name", PStr n); ("snapshot", id)])
  | List_ _ => None
  | RunCmd _ cmd => Some (PDict [("cmd", PStr cmd)])
  | Snapshot _ tag => Some (PDict [("tag", PStr tag)])
  | Destroy _ => None
  end%string.

Definition scripted_names (body : pyval) : list string :=
  match body with
  | PList items =>
      flat_map (fun v => match v with PStr n => [n] | _ => [] end) items
  | _ => []
  end.

Definition scripted : Service :=
  mkService (list http_result) scripted_serve scripted_path scripted_body
            scripted_names.

(** An answer of the error convention: status [status] and the message
    [text] under [error.message]. *)
Definition error_reply (status : Z) (text : string) : http_result :=
  Reply status (PDict [("error", PDict [("message", PStr text)])])%string.

Definition ok_reply (body : pyval) : http_result := Reply 200 body.

(** The answers of a server on which every request of [snapshot_example]
    succeeds; the snapshot gets the identifier "snap-1". *)
Definition happy_script : list http_result :=
  [ok_reply PNone;
   ok_reply (PDict [("output"%string, PStr "")]);
   ok_reply (PStr "snap-1");
   ok_reply (PDict [("output"%string, PStr "")]);
   ok_reply (PDict [("output"%string, PStr "")]);
   ok_reply PNone;
   ok_reply PNone;
   ok_reply (PDict [("output"%string, PStr "")]);
   ok_reply PNone].

(* ------------------------------------------------------------------ *)
(** *** Further readings of a trace *)

(** An exchange counts as succeeded when it was answered within 2xx;
    lines and sleeps always do. *)
Definition succeeded (e : event) : bool :=
  match e with
  | EvHttp _ _ (Reply status _) => is_2xx status
  | EvHttp _ _ Unreachable => false
  | _ => true
  end.

(** The errors of Python's own lookups: [v[k]], [v.get(k)], [k in v],
    [for x in v], [xs[i]]. *)
Definition lookup_error (e : exn) : bool :=
  match e with
  | KeyError _ | TypeError | AttributeError | IndexError => true
  | _ => false
  end.

(** [e.response.json()['error']['message']], the lookup of the
    [requests.HTTPError] clause, for [e.response = r]. *)
Definition message_of (r : option response) : outcome pyval :=
  match response_json r with
  | Ok body => error_message body
  | Err x => Err x
  end.

(** The line [basic_usage_example] prints for a listed VM. *)
Definition name_line (n : string) : event :=
  EvPrint [Lit "  - "; Fmt (PStr n)].

(** What [basic_usage_example] goes on to do once the listing has been
    answered by [res]: nothing when the listing failed; otherwise one line
    per listed VM, in the order of the listing, and then nothing more when
    there is a VM, or the start of "example-vm" as the only further call
    when there is none. *)
Definition after_listing {service : Service}
    (res : http_result) (tail : list event) : Prop :=
  match res with
  | Unreachable => tail = []
  | Reply status body =>
      if is_2xx status then
        exists rest,
          tail = map name_line (vm_names body) ++ rest /\
          match vm_names body with
          | [] => calls rest = [StartSandbox "example-vm"]
          | _ :: _ => rest = []
          end
      else tail = []
  end.

(** [v[k]] succeeds. *)
Definition has_key (v : pyval) (k : string) : bool :=
  match py_getitem v k with
  | Ok _ => true
  | Err _ => false
  end.

(** An entry of the port-forward list with the three keys its line
    needs. *)
Definition complete_forward (pf : pyval) : bool :=
  has_key pf "host_port" && has_key pf "guest_port" &&
  has_key pf "description".

(** Every answer outside 2xx in [t] follows the error convention: its
    body has a message under [error.message]. *)
Definition conventional (t : list event) : Prop :=
  forall c req status body,
    In (EvHttp c req (Reply status body)) t ->
    is_2xx status = false ->
    exists message, error_message body = Ok message.

(** [e] is what the lookup of the message raises on an answer outside
    2xx that is in [t]. *)
Definition handler_failure (t : list event) (e : exn) : Prop :=
  exists c req status body,
    In (EvHttp c req (Reply status body)) t /\
    is_2xx status = false /\
    error_message body = Err e.

(** What an example can raise: never a bare [BaseException], and as
    [requests.HTTPError] only the [ApiError] of an answer outside 2xx
    that is in [t]. *)
Definition example_error (t : list event) (e : exn) : Prop :=
  match e with
  | HTTPError r =>
      exists c req status body,
        r = Some (mkResponse status (Some body)) /\
        In (EvHttp c req (Reply status body)) t /\
        is_2xx status = false
  | KeyboardInterrupt | SystemExit => False
  | _ => True
  end.

(** The calls of [snapshot_example] in the order of the script. *)
Definition snapshot_calls (snapshot_id : pyval) : list api_call :=
  [StartSandbox "snapshot-example";
   RunCmd "snapshot-example" "echo 'test data before snapshot' > /tmp/testfile";
   Snapshot "snapshot-example" "initial-state";
   RunCmd "snapshot-example" "echo 'test data after snapshot' > /tmp/testfile";
   RunCmd "snapshot-example" "cat /tmp/testfile";
   Destroy "snapshot-example";
   Restore "snapshot-example" snapshot_id;
   RunCmd "snapshot-example" "cat /tmp/testfile";
   Destroy "snapshot-example"].

(* ================================================================== *)
(** ** The top-level handler *)

Section Wrapper.
Context {service : Service}.
Local Open Scope py_scope.

Lemma wrap_ok {A} (func : M A) s v :
  out (func s) = Ok v ->
  wrap_with_error_handling func s =
    mkResult (Ok (Some v)) (srv (func s)) (trace (func s)).
Proof.
  intros H. unfold wrap_with_error_handling, try_except, bind.
  destruct (func s) as [o s1 t1]; simpl in *; subst o; simpl.
  now rewrite app_nil_r.
Qed.

Lemma wrap_err {A} (func : M A) s e :
  out (func s) = Err e ->
  wrap_with_error_handling func s =
    if is_HTTPError e then
      let h := on_http_error (A := A) e (srv (func s)) in
      mkResult (out h) (srv h) (trace (func s) ++ trace h)
    else if is_Exception e then
      let h := on_exception (A := A) e (srv (func s)) in
      mkResult (out h) (srv h) (trace (func s) ++ trace h)
    else mkResult (Err e) (srv (func s)) (trace (func s)).
Proof.
  intros H. unfold wrap_with_error_handling, try_except, bind.
  destruct (func s) as [o s1 t1]; simpl in *; subst o; simpl.
  destruct (is_HTTPError e); [reflexivity|].
  destruct (is_Exception e); reflexivity.
Qed.

Lemma on_exception_run {A} e s :
  on_exception (A := A) e s = mkResult (Ok None) s (error_lines e).
Proof. reflexivity. Qed.

Lemma on_http_error_structured {A} r body message s :
  json_body r = Some body ->
  error_message body = Ok message ->
  on_http_error (A := A) (HTTPError (Some r)) s =
    mkResult (Ok None) s [api_error_line message].
Proof.
  intros Hj Hm. unfold on_http_error, response_json, error_message in *.
  rewrite Hj. unfold bind, lift; simpl.
  destruct (py_getitem body "error") as [error|]; [|discriminate]. simpl.
  rewrite Hm. reflexivity.
Qed.

Lemma on_http_error_run {A} r s :
  on_http_error (A := A) (HTTPError r) s =
    match message_of r with
    | Ok message => mkResult (Ok None) s [api_error_line message]
    | Err x => mkResult (Err x) s []
    end.
Proof.
  unfold on_http_error, message_of, error_message, bind, lift.
  destruct (response_json r) as [body|x]; simpl; [|reflexivity].
  destruct (py_getitem body "error") as [error|x]; simpl; [|reflexivity].
  destruct (py_getitem error "message") as [message|x]; reflexivity.
Qed.

Lemma wrap_run {A} (func : M A) s :
  wrap_with_error_handling func s =
    match out (func s) with
    | Ok v => mkResult (Ok (Some v)) (srv (func s)) (trace (func s))
    | Err (HTTPError r) =>
        match message_of r with
        | Ok message =>
            mkResult (Ok None) (srv (func s))
              (trace (func s) ++ [api_error_line message])
        | Err x => mkResult (Err x) (srv (func s)) (trace (func s))
        end
    | Err e =>
        if is_Exception e then
          mkResult (Ok None) (srv (func s)) (trace (func s) ++ error_lines e)
        else mkResult (Err e) (srv (func s)) (trace (func s))
    end.
Proof.
  destruct (out (func s)) as [v|e] eqn:Hout.
  - apply wrap_ok, Hout.
  - rewrite (wrap_err func s e Hout).
    destruct e; try reflexivity.
    simpl is_HTTPError. cbv iota zeta. rewrite on_http_error_run.
    destruct (message_of resp); simpl; [reflexivity|].
    now rewrite app_nil_r.
Qed.

End Wrapper.

(** ** C9, C2, C3: what [wrap_with_error_handling] returns and prints *)



(** C2.  When the wrapped function raises the API-level error, a
    [requests.HTTPError] whose attached response has a JSON body with a
    message under [error.message], the handler prints one line, made of
    [RED], the text "API Error: ", that very message and [RESET], and
    returns [None]. *)
Theorem api_error_message_is_printed :
  forall (service : Service) (A : Type) (func : M A) (s : server)
         (r : response) (body message : pyval),
    out (func s) = Err (HTTPError (Some r)) ->
    json_body r = Some body ->
    error_message body = Ok message ->
    trace (wrap_with_error_handling func s) =
      trace (func s) ++
      [EvPrint [Fmt (PStr RED); Lit "API Error: "; Fmt message;
                Fmt (PStr RESET)]] /\
    out (wrap_with_error_handling func s) = Ok None.
Proof.
  intros service A func s r body message Hout Hj Hm.
  rewrite (wrap_err func s _ Hout). cbv zeta. simpl is_HTTPError. cbv iota.
  rewrite (on_http_error_structured r body message _ Hj Hm).
  split; reflexivity.
Qed.

Lemma api_error_message_is_printed_witness :
  trace (wrap_with_error_handling (service := scripted) basic_usage_example
           [error_reply 500 "no such VM"]) =
    trace (basic_usage_example (service := scripted)
             [error_reply 500 "no such VM"]) ++
    [EvPrint [Fmt (PStr RED); Lit "API Error: "; Fmt (PStr "no such VM");
              Fmt (PStr RESET)]] /\
  out (wrap_with_error_handling (service := scripted) basic_usage_example
         [error_reply 500 "no such VM"]) = Ok None.
Proof.
  apply (api_error_message_is_printed scripted unit basic_usage_example
           [error_reply 500 "no such VM"]
           (mkResponse 500
              (Some (PDict [("error"%string,
                             PDict [("message"%string, PStr "no such VM")])])))
           (PDict [("error"%string,
                    PDict [("message"%string, PStr "no such VM")])])
           (PStr "no such VM"));
    vm_compute; reflexivity.
Defined.

Lemma coloured_api_error_line message : coloured (api_error_line message).
Proof. exists [Lit "API Error: "; Fmt message]. reflexivity. Qed.

Lemma coloured_error_lines e : Forall coloured (error_lines e).
Proof.
  unfold error_lines. repeat constructor.
  - exists [Lit "Error: "; FmtExn e]. reflexivity.
  - exists [Lit "Make sure the Arrakis server is running and accessible at ";
            Fmt (PStr BASE_URL)]. reflexivity.
Qed.

(** C3.  Whatever [func] is, when [func()] raises an error of one of the
    two kinds (the server cannot be reached, or any other [Exception]
    that is no [requests.HTTPError]; the server answered outside 2xx with
    a structured message), [wrap_with_error_handling(func)] returns
    [None] instead of raising, has added to what [func] did only coloured
    lines, at least one, and whatever statement follows the call is
    run. *)
Theorem wrap_catches_both_error_kinds :
  forall (service : Service) (A : Type) (func : M A) (s : server) (e : exn),
    out (func s) = Err e ->
    error_kind e ->
    out (wrap_with_error_handling func s) = Ok None /\
    (exists lines,
        lines <> [] /\ Forall coloured lines /\
        trace (wrap_with_error_handling func s) = trace (func s) ++ lines) /\
    (forall (B : Type) (rest : M B),
        let after := rest (srv (wrap_with_error_handling func s)) in
        out (bind (wrap_with_error_handling func) (fun _ => rest) s) =
          out after /\
        trace (bind (wrap_with_error_handling func) (fun _ => rest) s) =
          trace (wrap_with_error_handling func s) ++ trace after).
Proof.
  intros service A func s e Hout Hkind.
  assert (Hrun : exists lines,
             lines <> [] /\ Forall coloured lines /\
             wrap_with_error_handling func s =
               mkResult (Ok None) (srv (func s)) (trace (func s) ++ lines)).
  { rewrite (wrap_err func s e Hout).
    destruct Hkind as [e Hexc Hhttp|r body message Hj Hm].
    - exists (error_lines e). split; [discriminate|].
      split; [apply coloured_error_lines|].
      now rewrite Hhttp, Hexc.
    - exists [api_error_line message]. split; [discriminate|].
      split; [repeat constructor; apply coloured_api_error_line|].
      simpl is_HTTPError. cbv iota zeta.
      now rewrite (on_http_error_structured r body message _ Hj Hm). }
  destruct Hrun as (lines & Hne & Hcol & Hrun).
  split; [now rewrite Hrun|].
  split; [exists lines; now rewrite Hrun|].
  intros B rest after. subst after. unfold bind at 1 2.
  rewrite Hrun. simpl. split; reflexivity.
Qed.

Lemma wrap_catches_both_error_kinds_witness :
  out (wrap_with_error_handling (service := scripted) snapshot_example []) =
    Ok None /\
  (exists lines,
      lines <> [] /\ Forall coloured lines /\
      trace (wrap_with_error_handling (service := scripted)
               snapshot_example []) =
        trace (snapshot_example (service := scripted) []) ++ lines) /\
  (forall (B : Type) (rest : M B),
      let after :=
        rest (srv (wrap_with_error_handling (service := scripted)
                     snapshot_example [])) in
      out (bind (wrap_with_error_handling snapshot_example)
             (fun _ => rest) []) = out after /\
      trace (bind (wrap_with_error_handling snapshot_example)
               (fun _ => rest) []) =
        trace (wrap_with_error_handling (service := scripted)
                 snapshot_example []) ++ trace after).
Proof.
  apply (wrap_catches_both_error_kinds scripted unit snapshot_example []
           ServiceUnavailable).
  - vm_compute; reflexivity.
  - apply transport_failure; reflexivity.
Defined.

(** Both error kinds of the SDK are among them. *)
Lemma sdk_errors_are_of_a_kind :
  error_kind ServiceUnavailable /\
  forall status body message,
    error_message body = Ok message -> error_kind (ApiError status body).
Proof.
  split.
  - apply transport_failure; reflexivity.
  - intros status body message Hm.
    exact (api_failure (mkResponse status (Some body)) body message
             eq_refl Hm).
Qed.

(** X1.  Outside the two kinds nothing is caught for good, and nothing
    is printed or sent either.  An exception that is no [Exception]
    ([KeyboardInterrupt], [SystemExit]) goes up from the wrapper as it
    is; for a [requests.HTTPError] without a structured message what goes
    up is the error of the handler's own lookup. *)
Lemma wrap_raises_otherwise :
  forall (service : Service) (A : Type) (func : M A) (s : server) (e : exn),
    out (func s) = Err e ->
    ~ error_kind e ->
    trace (wrap_with_error_handling func s) = trace (func s) /\
    srv (wrap_with_error_handling func s) = srv (func s) /\
    ((is_Exception e = false /\
      out (wrap_with_error_handling func s) = Err e) \/
     (exists r x,
         e = HTTPError r /\ message_of r = Err x /\
         out (wrap_with_error_handling func s) = Err x)).
Proof.
  intros service A func s e Hout Hkind.
  rewrite wrap_run, Hout.
  destruct e as [r| | | | | | | | |];
    try (exfalso; apply Hkind; apply transport_failure; reflexivity);
    try (simpl; auto).
  destruct (message_of r) as [message|x] eqn:Hm.
  - exfalso. apply Hkind. revert Hm. unfold message_of, response_json.
    destruct r as [r|]; [|discriminate].
    destruct (json_body r) as [body|] eqn:Hj; [|discriminate].
    intros Hm. exact (api_failure r body message Hj Hm).
  - simpl. split; [reflexivity|]. split; [reflexivity|].
    right. exists r, x. auto.
Qed.

(* ================================================================== *)
(** ** The methods of the SDK *)

Section Methods.
Context {service : Service}.
Local Open Scope py_scope.

Lemma api_run base c s :
  api base c s =
    mkResult
      match snd (serve s (request_of base c)) with
      | Unreachable => Err ServiceUnavailable
      | Reply status body =>
          if is_2xx status then Ok body else Err (ApiError status body)
      end
      (fst (serve s (request_of base c)))
      [EvHttp c (request_of base c) (snd (serve s (request_of base c)))].
Proof.
  unfold api, bind, http.
  destruct (serve s (request_of base c)) as [s1 [|status body]]; simpl.
  - reflexivity.
  - destruct (is_2xx status); reflexivity.
Qed.

Lemma api_single base c : single_exchange (api base c) base c (fun body => body).
Proof. intros s req res. subst req res. rewrite api_run. auto. Qed.

Lemma api_then_run {A} base c (value : pyval -> A) s :
  (body <- api base c ;; ret (value body)) s =
    mkResult
      match snd (serve s (request_of base c)) with
      | Unreachable => Err ServiceUnavailable
      | Reply status body =>
          if is_2xx status then Ok (value body)
          else Err (ApiError status body)
      end
      (fst (serve s (request_of base c)))
      [EvHttp c (request_of base c) (snd (serve s (request_of base c)))].
Proof.
  unfold bind. rewrite api_run. simpl.
  destruct (snd (serve s (request_of base c))) as [|status body]; simpl.
  - reflexivity.
  - destruct (is_2xx status); reflexivity.
Qed.

Lemma api_then_single {A} base c (value : pyval -> A) :
  single_exchange (body <- api base c ;; ret (value body)) base c value.
Proof. intros s req res. subst req res. rewrite api_then_run. auto. Qed.

End Methods.

(** C6.  Each of the seven methods makes exactly one HTTP exchange, for
    its own call with the method, URL and body the wire format gives that
    call, leaves the server as that exchange left it, and then returns
    what it builds from the parsed JSON of a 2xx answer, raises the
    API-level error on any other answer, and the transport error when
    there is none. *)
Theorem every_method_is_a_single_exchange :
  forall (service : Service),
    (forall m,
        single_exchange (list_all m) (base_url m) ListAll
          (fun body => map (fun n => mkSandbox n (base_url m)) (vm_names body))) /\
    (forall m n,
        single_exchange (start_sandbox m n) (base_url m) (StartSandbox n)
          (fun _ => mkSandbox n (base_url m))) /\
    (forall m n id,
        single_exchange (restore m n id) (base_url m) (Restore n id)
          (fun _ => mkSandbox n (base_url m))) /\
    (forall sb,
        single_exchange (Sandbox_list sb) (sandbox_url sb) (List_ (name sb))
          (fun body => body)) /\
    (forall sb cmd,
        single_exchange (run_cmd sb cmd) (sandbox_url sb) (RunCmd (name sb) cmd)
          (fun body => body)) /\
    (forall sb tag,
        single_exchange (snapshot sb tag) (sandbox_url sb)
          (Snapshot (name sb) tag) (fun body => body)) /\
    (forall sb,
        single_exchange (destroy sb) (sandbox_url sb) (Destroy (name sb))
          (fun body => body)) /\
    (forall base c,
        request_of base c =
          mkRequest
            match c with
            | ListAll | List_ _ => GET
            | Destroy _ => DELETE
            | StartSandbox _ | Restore _ _ | RunCmd _ _ | Snapshot _ _ => POST
            end
            (base ++ path_of c)%string (body_of c)).
Proof.
  intros service.
  split; [intros m; apply api_then_single|].
  split; [intros m n;
          exact (api_then_single _ _ (fun _ => mkSandbox n (base_url m)))|].
  split; [intros m n id;
          exact (api_then_single _ _ (fun _ => mkSandbox n (base_url m)))|].
  split; [intros sb; apply api_single|].
  split; [intros sb cmd; apply api_single|].
  split; [intros sb tag; apply api_single|].
  split; [intros sb; apply api_single|].
  intros base c. destruct c; reflexivity.
Qed.

(** C4.  [list_all()] raises [ServiceUnavailable] when the server cannot
    be reached and [ApiError], with the response and so the message of the
    server attached, when the answer is outside 2xx; it returns on a 2xx
    answer; it raises nothing else, and the two kinds are the ones the
    clauses of the cookbook's handler tell apart. *)
Theorem list_all_error_kinds :
  forall (service : Service) (m : SandboxManager) (s : server),
    match snd (serve s (request_of (base_url m) ListAll)) with
    | Unreachable => out (list_all m s) = Err ServiceUnavailable
    | Reply status body =>
        if is_2xx status then exists handles, out (list_all m s) = Ok handles
        else out (list_all m s) = Err (ApiError status body) /\
             ApiError status body =
               HTTPError (Some (mkResponse status (Some body)))
    end /\
    match out (list_all m s) with
    | Ok _ => True
    | Err e =>
        e = ServiceUnavailable \/
        exists status body, e = ApiError status body /\ is_2xx status = false
    end /\
    (forall status body, is_HTTPError (ApiError status body) = true) /\
    is_HTTPError ServiceUnavailable = false /\
    is_Exception ServiceUnavailable = true.
Proof.
  intros service m s.
  destruct (api_then_single (base_url m) ListAll
              (fun body => map (fun n => mkSandbox n (base_url m)) (vm_names body))
              s) as (_ & _ & Hout).
  cbv zeta in Hout. unfold list_all. rewrite Hout. clear Hout.
  destruct (snd (serve s (request_of (base_url m) ListAll)))
    as [|status body].
  - repeat split; auto.
  - destruct (is_2xx status) eqn:H2.
    + repeat split; eauto.
    + repeat split; eauto.
Qed.

(* ================================================================== *)
(** ** Rules of the postcondition calculus *)

Section Rules.
Context {service : Service}.
Local Open Scope py_scope.

Lemma replay_app s t1 t2 : replay s (t1 ++ t2) = replay (replay s t1) t2.
Proof.
  revert s. induction t1 as [|[l|d|c rq rs] t1 IH]; intros s; simpl; auto.
Qed.

Lemma wp_ret {A} (a : A) post : post (Ok a) [] -> wp (ret a) post.
Proof. intros H s. split; [exact H|reflexivity]. Qed.

Lemma wp_raise {A} (e : exn) (post : outcome A -> list event -> Prop) :
  post (Err e) [] -> wp (raise e) post.
Proof. intros H s. split; [exact H|reflexivity]. Qed.

Lemma wp_emit_print line post :
  post (Ok tt) [EvPrint line] -> wp (emit (EvPrint line)) post.
Proof. intros H s. split; [exact H|reflexivity]. Qed.

Lemma wp_emit_sleep seconds post :
  post (Ok tt) [EvSleep seconds] -> wp (emit (EvSleep seconds)) post.
Proof. intros H s. split; [exact H|reflexivity]. Qed.

Lemma wp_lift {A} (o : outcome A) post : post o [] -> wp (lift o) post.
Proof. intros H s. destruct o; (split; [exact H|reflexivity]). Qed.

Lemma wp_bind {A B} (m : M A) (f : A -> M B) post :
  wp m (fun o t1 =>
          match o with
          | Ok a => wp (f a) (fun o2 t2 => post o2 (t1 ++ t2))
          | Err e => post (Err e) t1
          end) ->
  wp (bind m f) post.
Proof.
  intros H s. unfold bind. destruct (H s) as [Hm Hs]. clear H.
  destruct (m s) as [o s1 t1]; simpl in *.
  destruct o as [a|e]; simpl.
  - destruct (Hm s1) as [Hf Hs']. split; [exact Hf|].
    now rewrite replay_app, <- Hs.
  - now split.
Qed.

Lemma wp_api base c post :
  (forall res,
      match res with
      | Unreachable =>
          post (Err ServiceUnavailable) [EvHttp c (request_of base c) res]
      | Reply status body =>
          if is_2xx status
          then post (Ok body) [EvHttp c (request_of base c) res]
          else post (Err (ApiError status body))
                 [EvHttp c (request_of base c) res]
      end) ->
  wp (api base c) post.
Proof.
  intros H s. rewrite api_run. simpl. split; [|reflexivity].
  specialize (H (snd (serve s (request_of base c)))).
  destruct (snd (serve s (request_of base c))) as [|status body].
  - exact H.
  - destruct (is_2xx status); exact H.
Qed.

Lemma wp_for_each {X} (inv : list event -> Prop) (xs : list X)
    (body : X -> M unit) post :
  inv [] ->
  (forall x t,
      inv t ->
      wp (body x) (fun o t' =>
                     match o with
                     | Ok _ => inv (t ++ t')
                     | Err e => post (Err e) (t ++ t')
                     end)) ->
  (forall t, inv t -> post (Ok tt) t) ->
  wp (for_each xs body) post.
Proof.
  intros H0 Hstep Hend.
  assert (G : forall t, inv t ->
                wp (for_each xs body) (fun o t' => post o (t ++ t'))).
  { induction xs as [|x rest IH]; intros t Ht.
    - apply wp_ret. rewrite app_nil_r. now apply Hend.
    - simpl. apply wp_bind. intros s.
      destruct (Hstep x t Ht s) as [Hb Hs]. split; [|exact Hs].
      destruct (out (body x s)) as [[]|e].
      + intros s'. rewrite app_assoc. now apply IH.
      + exact Hb. }
  exact (G [] H0).
Qed.

Lemma with_run (expr : M Sandbox) body s h :
  out (expr s) = Ok h ->
  with_ expr body s =
    let inside := body h (srv (expr s)) in
    let leaving := destroy h (srv inside) in
    mkResult
      match out leaving with
      | Err e' => Err e'
      | Ok _ => out inside
      end
      (srv leaving)
      (trace (expr s) ++ trace inside ++ trace leaving).
Proof.
  intros H. unfold with_, __enter__, __exit__, bind, ret.
  destruct (expr s) as [o s1 t1]; simpl in *; subst o; simpl.
  destruct (body h s1) as [ob sb tb]; simpl.
  destruct (destroy h sb) as [od sd td]; simpl.
  destruct od as [v|e']; simpl; rewrite ?app_nil_r.
  - destruct ob as [[]|e]; reflexivity.
  - reflexivity.
Qed.

Lemma with_skipped (expr : M Sandbox) body s e :
  out (expr s) = Err e ->
  with_ expr body s = mkResult (Err e) (srv (expr s)) (trace (expr s)).
Proof.
  intros H. unfold with_, bind.
  destruct (expr s) as [o s1 t1]; simpl in *; subst o; reflexivity.
Qed.

Lemma destroy_trace h s :
  trace (destroy h s) =
    [EvHttp (Destroy (name h)) (request_of (sandbox_url h) (Destroy (name h)))
       (snd (serve s (request_of (sandbox_url h) (Destroy (name h)))))].
Proof. unfold destroy. now rewrite api_run. Qed.

Lemma wp_with_ (expr : M Sandbox) body post :
  wp expr (fun o t0 =>
             match o with
             | Err e => post (Err e) t0
             | Ok h =>
                 wp (body h) (fun ob tb =>
                   wp (destroy h) (fun od td =>
                     post match od with
                          | Err e' => Err e'
                          | Ok _ => ob
                          end (t0 ++ tb ++ td)))
             end) ->
  wp (with_ expr body) post.
Proof.
  intros H s. destruct (H s) as [He Hs]. clear H.
  destruct (out (expr s)) as [h|e] eqn:Hout.
  - rewrite (with_run expr body s h Hout). simpl.
    destruct (He (srv (expr s))) as [Hb Hsb].
    destruct (Hb (srv (body h (srv (expr s))))) as [Hd Hsd].
    split; [exact Hd|].
    now rewrite !replay_app, <- Hs, <- Hsb.
  - rewrite (with_skipped expr body s e Hout). now split.
Qed.

Lemma wp_on_exception {A} (e : exn) post :
  post (Ok None) (error_lines e) -> wp (on_exception (A := A) e) post.
Proof. intros H s. rewrite on_exception_run. now split. Qed.

Lemma wp_wrap {A} (func : M A) post :
  wp func (fun o t =>
             match o with
             | Ok v => post (Ok (Some v)) t
             | Err e =>
                 if is_HTTPError e then
                   wp (on_http_error (A := A) e)
                      (fun o' t' => post o' (t ++ t'))
                 else if is_Exception e then
                   post (Ok None) (t ++ error_lines e)
                 else post (Err e) t
             end) ->
  wp (wrap_with_error_handling func) post.
Proof.
  intros H s. destruct (H s) as [Hf Hs]. clear H.
  destruct (out (func s)) as [v|e] eqn:Hout.
  - rewrite (wrap_ok func s v Hout). now split.
  - rewrite (wrap_err func s e Hout).
    destruct (is_HTTPError e).
    + destruct (Hf (srv (func s))) as [Hh Hsh]. simpl.
      split; [exact Hh|]. now rewrite replay_app, <- Hs.
    + destruct (is_Exception e); simpl.
      * split; [exact Hf|]. rewrite replay_app, <- Hs. reflexivity.
      * now split.
Qed.

Lemma wp_mono {A} (m : M A) (post post' : outcome A -> list event -> Prop) :
  wp m post -> (forall o t, post o t -> post' o t) -> wp m post'.
Proof.
  intros H Himp s. destruct (H s) as [Hp Hs]. split; [now apply Himp|exact Hs].
Qed.

End Rules.

(** One step of symbolic execution of a cookbook function. *)
Ltac wp_step :=
  cbv beta iota zeta;
  cbn [name sandbox_url base_url];
  lazymatch goal with
  | |- wp (bind _ _) _ => apply wp_bind
  | |- wp (say _) _ => apply wp_emit_print
  | |- wp (print _) _ => apply wp_emit_print
  | |- wp (sleep _) _ => apply wp_emit_sleep
  | |- wp (ret _) _ => apply wp_ret
  | |- wp (raise _) _ => apply wp_raise
  | |- wp (start_sandbox _ _) _ => unfold start_sandbox
  | |- wp (restore _ _ _) _ => unfold restore
  | |- wp (run_cmd _ _) _ => unfold run_cmd
  | |- wp (snapshot _ _) _ => unfold snapshot
  | |- wp (destroy _) _ => unfold destroy
  | |- wp (Sandbox_list _) _ => unfold Sandbox_list
  | |- wp (list_all _) _ => unfold list_all
  | |- wp (print_output _ _) _ => unfold print_output
  | |- wp (print_port_forward _) _ => unfold print_port_forward
  | |- wp (context_manager_body _) _ => unfold context_manager_body
  | |- wp (with_ _ _) _ => apply wp_with_
  | |- wp (api _ _) _ =>
      let st := fresh "status" in
      let b := fresh "body" in
      let H := fresh "H2xx" in
      apply wp_api; intros [|st b];
      [|destruct (is_2xx st) eqn:H]
  | |- wp (lift _) _ => apply wp_lift
  | |- wp (if ?b then _ else _) _ => destruct b eqn:?
  | |- wp (match ?o with _ => _ end) _ => destruct o eqn:?
  | |- match ?o with _ => _ end => destruct o eqn:?
  end.

Ltac wp_run := repeat wp_step.

(* ================================================================== *)
(** ** C7: the fixed sleep after every start *)

Lemma sleeps_first_prints lines rest :
  forallb is_print lines = true ->
  sleeps_first (lines ++ rest) = sleeps_first rest.
Proof.
  induction lines as [|[l|d|c rq rs] lines IH]; simpl; intros H;
    try discriminate; auto.
Qed.

Lemma waits_after_start_prints lines rest :
  forallb is_print lines = true ->
  waits_after_start (lines ++ rest) = waits_after_start rest.
Proof.
  induction lines as [|[l|d|c rq rs] lines IH]; simpl; intros H;
    try discriminate; auto.
Qed.

Lemma waits_after_start_only_prints lines :
  forallb is_print lines = true -> waits_after_start lines = true.
Proof.
  intros H. rewrite <- (app_nil_r lines).
  now rewrite waits_after_start_prints.
Qed.

Lemma sleeps_first_spec t :
  sleeps_first t = true ->
  exists lines rest,
    t = lines ++ EvSleep VM_START_WAIT_TIME_SECONDS :: rest /\
    forallb is_print lines = true.
Proof.
  induction t as [|[l|d|c rq rs] t IH]; simpl; intros H; try discriminate.
  - destruct (IH H) as (lines & rest & -> & Hl).
    exists (EvPrint l :: lines), rest. split; [reflexivity|exact Hl].
  - apply Z.eqb_eq in H. subst d. exists [], t. split; reflexivity.
Qed.

Lemma waits_after_start_split pre e post :
  waits_after_start (pre ++ e :: post) = true ->
  started e = true ->
  sleeps_first post = true.
Proof.
  induction pre as [|x pre IH]; simpl; intros H He.
  - rewrite He in H. now apply andb_prop in H.
  - apply andb_prop in H. now apply IH.
Qed.

Ltac waits_done :=
  lazymatch goal with
  | |- wp _ _ => fail
  | |- _ => idtac
  end;
  cbn [app];
  rewrite ?app_nil_r, <- ?app_assoc;
  repeat
    (progress
       (cbn [app waits_after_start started sleeps_first andb];
        repeat match goal with
               | H : is_2xx ?x = _ |- context [is_2xx ?x] => rewrite H
               | H : forallb is_print ?t = true
                 |- context [waits_after_start (?t ++ ?r)] =>
                   rewrite (waits_after_start_prints t r H)
               | H : forallb is_print ?t = true
                 |- context [waits_after_start ?t] =>
                   rewrite (waits_after_start_only_prints t H)
               | H : forallb is_print ?t = true
                 |- context [sleeps_first (?t ++ ?r)] =>
                   rewrite (sleeps_first_prints t r H)
               end));
  try reflexivity.

Section Waits.
Context {service : Service}.

Lemma snapshot_example_waits :
  wp snapshot_example (fun _ t => waits_after_start t = true).
Proof. unfold snapshot_example. wp_run; waits_done. Qed.

Lemma context_manager_example_waits :
  wp context_manager_example (fun _ t => waits_after_start t = true).
Proof. unfold context_manager_example. wp_run; waits_done. Qed.

Lemma basic_usage_example_waits :
  wp basic_usage_example (fun _ t => waits_after_start t = true).
Proof.
  unfold basic_usage_example. wp_run; try waits_done.
  apply (wp_for_each (fun t => forallb is_print t = true)).
  - reflexivity.
  - intros sandbox t Ht. wp_run. rewrite forallb_app, Ht. reflexivity.
  - intros t Ht. wp_run; waits_done. 
Qed.

Lemma vm_management_example_waits :
  wp vm_management_example (fun _ t => waits_after_start t = true).
Proof.
  unfold vm_management_example. wp_run; try waits_done.
  apply (wp_for_each (fun t => forallb is_print t = true)).
  - reflexivity.
  - intros pf t Ht. wp_run; try waits_done.
    rewrite forallb_app, Ht. reflexivity.
  - intros t Ht. wp_run; waits_done.
Qed.

End Waits.

(** C7.  In each of the four examples, once [start_sandbox] has
    succeeded the script does nothing but print until it has slept
    [VM_START_WAIT_TIME_SECONDS], which is 3, seconds: the sleep comes
    before any later exchange with the server, and no exchange is made to
    ask the server whether the VM is ready. *)
Theorem fixed_sleep_follows_every_start :
  forall (service : Service) (example : M unit) (s : server)
         (pre post : list event) (n : string) (req : request)
         (status : Z) (body : pyval),
    In example examples ->
    trace (example s) =
      pre ++ EvHttp (StartSandbox n) req (Reply status body) :: post ->
    is_2xx status = true ->
    VM_START_WAIT_TIME_SECONDS = 3 /\
    exists lines rest,
      post = lines ++ EvSleep 3 :: rest /\
      forallb is_print lines = true.
Proof.
  intros service example s pre post n req status body Hin Htrace H2xx.
  split; [reflexivity|].
  assert (Hw : waits_after_start (trace (example s)) = true).
  { destruct Hin as [<-|[<-|[<-|[<-|[]]]]].
    - apply basic_usage_example_waits.
    - apply vm_management_example_waits.
    - apply snapshot_example_waits.
    - apply context_manager_example_waits. }
  rewrite Htrace in Hw.
  apply sleeps_first_spec.
  apply (waits_after_start_split pre _ post Hw).
  exact H2xx.
Qed.

Lemma fixed_sleep_follows_every_start_witness :
  VM_START_WAIT_TIME_SECONDS = 3 /\
  exists lines rest,
    skipn 5 (trace (basic_usage_example (service := scripted)
                      [ok_reply (PList []); ok_reply PNone])) =
      lines ++ EvSleep 3 :: rest /\
    forallb is_print lines = true.
Proof.
  apply (fixed_sleep_follows_every_start scripted basic_usage_example
           [ok_reply (PList []); ok_reply PNone]
           (firstn 4 (trace (basic_usage_example (service := scripted)
                               [ok_reply (PList []); ok_reply PNone])))
           (skipn 5 (trace (basic_usage_example (service := scripted)
                              [ok_reply (PList []); ok_reply PNone])))
           "example-vm"
           (mkRequest POST "http://localhost:7000/vms"
              (Some (PDict [("name"%string, PStr "example-vm")])))
           200 PNone).
  - left. reflexivity.
  - vm_compute. reflexivity.
  - reflexivity.
Defined.

(* ================================================================== *)
(** ** C1: the scoped block *)

Lemma calls_app t1 t2 : calls (t1 ++ t2) = calls t1 ++ calls t2.
Proof.
  induction t1 as [|[l|d|c rq rs] t1 IH]; simpl; auto. now rewrite IH.
Qed.

Lemma calls_prints lines : forallb is_print lines = true -> calls lines = [].
Proof.
  induction lines as [|[l|d|c rq rs] lines IH]; simpl; intros H;
    try discriminate; auto.
Qed.

Lemma destroys_app n t1 t2 :
  destroys n (t1 ++ t2) = (destroys n t1 + destroys n t2)%nat.
Proof. unfold destroys. now rewrite calls_app, filter_app, length_app. Qed.

Lemma destroys_destroy n rq rs : destroys n [EvHttp (Destroy n) rq rs] = 1%nat.
Proof. unfold destroys. simpl. now rewrite String.eqb_refl. Qed.

Lemma in_calls c rq rs t : In (EvHttp c rq rs) t -> In c (calls t).
Proof.
  induction t as [|[l|d|c' rq' rs'] t IH]; simpl; auto.
  - intros [H|H]; [discriminate|auto].
  - intros [H|H]; [discriminate|auto].
  - intros [H|H]; [left; congruence|auto].
Qed.

(** C1.  When [start_sandbox] has given a handle, the [with] block over
    it makes, after whatever its body did and on the normal and on the
    exceptional way out alike, one [destroy()] exchange for that handle:
    the block has exactly one more of them than its body made itself, and
    an exception of the body is not swallowed. *)
Theorem scoped_block_destroys_exactly_once :
  forall (service : Service) (m : SandboxManager) (n : string)
         (body : Sandbox -> M unit) (s : server) (h : Sandbox),
    out (start_sandbox m n s) = Ok h ->
    let entered := start_sandbox m n s in
    let inside := body h (srv entered) in
    let whole := with_ (start_sandbox m n) body s in
    (exists req res,
        trace whole =
          trace entered ++ trace inside ++
          [EvHttp (Destroy (name h)) req res]) /\
    destroys (name h) (trace whole) = S (destroys (name h) (trace inside)) /\
    match out inside with
    | Ok _ => True
    | Err _ => exists e, out whole = Err e
    end.
Proof.
  intros service m n body s h Hstart entered inside whole.
  subst whole. rewrite (with_run _ body s h Hstart).
  fold entered. fold inside. cbv zeta. simpl trace. simpl out.
  rewrite destroy_trace.
  split; [eauto|]. split.
  - rewrite !destroys_app, destroys_destroy.
    assert (He : destroys (name h) (trace entered) = 0%nat).
    { subst entered. unfold start_sandbox. rewrite api_then_run. reflexivity. }
    rewrite He. simpl. now rewrite Nat.add_comm.
  - destruct (out inside) as [[]|e]; [exact I|].
    destruct (out (destroy h (srv inside))) as [v|e']; eauto.
Qed.

Lemma scoped_block_destroys_exactly_once_witness :
  let service := scripted in
  let m := mkSandboxManager BASE_URL in
  let s := [ok_reply PNone; error_reply 500 "no shell"; ok_reply PNone] in
  let h := mkSandbox "auto-cleanup-example" BASE_URL in
  let entered := start_sandbox m "auto-cleanup-example" s in
  let inside := context_manager_body h (srv entered) in
  let whole :=
    with_ (start_sandbox m "auto-cleanup-example") context_manager_body s in
  (exists req res,
      trace whole =
        trace entered ++ trace inside ++
        [EvHttp (Destroy (name h)) req res]) /\
  destroys (name h) (trace whole) = S (destroys (name h) (trace inside)) /\
  match out inside with
  | Ok _ => True
  | Err _ => exists e, out whole = Err e
  end.
Proof.
  intros service m s h.
  apply (scoped_block_destroys_exactly_once service m "auto-cleanup-example"
           context_manager_body s h).
  vm_compute. reflexivity.
Defined.

Ltac destroys_done :=
  lazymatch goal with
  | |- wp _ _ => fail
  | |- _ => idtac
  end;
  cbn [app]; rewrite ?app_nil_r;
  cbn [existsb started orb];
  repeat match goal with
         | H : is_2xx ?x = _ |- context [is_2xx ?x] => rewrite H
         end;
  try reflexivity.

(** X13.  The block of the cookbook itself: in
    [context_manager_example] the VM is destroyed exactly once when it
    was started, and never otherwise. *)
Lemma context_manager_example_destroys_once :
  forall (service : Service) (s : server),
    destroys "auto-cleanup-example" (trace (context_manager_example s)) =
      if existsb started (trace (context_manager_example s)) then 1%nat
      else 0%nat.
Proof.
  intros service s.
  assert (H : wp context_manager_example
                (fun _ t =>
                   destroys "auto-cleanup-example" t =
                     if existsb started t then 1%nat else 0%nat)).
  { unfold context_manager_example. wp_run; destroys_done. }
  exact (proj1 (H s)).
Qed.

(* ================================================================== *)
(** ** C10: [basic_usage_example] destroys nothing *)

Ltac calls_done :=
  lazymatch goal with
  | |- wp _ _ => fail
  | |- _ => idtac
  end;
  cbn [app]; rewrite ?app_nil_r, <- ?app_assoc;
  repeat
    (progress
       (cbn [app calls];
        repeat match goal with
               | H : forallb is_print ?t = true |- context [calls (?t ++ ?r)] =>
                   rewrite (calls_app t r), (calls_prints t H)
               | H : forallb is_print ?t = true |- context [calls ?t] =>
                   rewrite (calls_prints t H)
               end));
  auto.

Lemma basic_usage_example_calls {service : Service} :
  wp basic_usage_example
     (fun _ t =>
        calls t = [ListAll] \/
        calls t = [ListAll; StartSandbox "example-vm"]).
Proof.
  unfold basic_usage_example. wp_run; try calls_done.
  apply (wp_for_each (fun t => forallb is_print t = true)).
  - reflexivity.
  - intros sandbox t Ht. wp_run. rewrite forallb_app, Ht. reflexivity.
  - intros t Ht. wp_run; calls_done.
Qed.

(** C10.  Whatever the server does, the exchanges of
    [basic_usage_example] are the listing and, at most, after it the start
    of "example-vm"; no [destroy()] goes out for any sandbox; and when the
    function returns the server is in the state those exchanges left it
    in, so that what the start created is still there. *)
Theorem basic_usage_example_never_destroys :
  forall (service : Service) (s : server),
    (forall n req res,
        ~ In (EvHttp (Destroy n) req res) (trace (basic_usage_example s))) /\
    (calls (trace (basic_usage_example s)) = [ListAll] \/
     calls (trace (basic_usage_example s)) =
       [ListAll; StartSandbox "example-vm"]) /\
    srv (basic_usage_example s) = replay s (trace (basic_usage_example s)).
Proof.
  intros service s.
  destruct (basic_usage_example_calls s) as [Hcalls Hsrv].
  split; [|split; assumption].
  intros n req res Hin. apply in_calls in Hin.
  destruct Hcalls as [Hc|Hc]; rewrite Hc in Hin; simpl in Hin;
    intuition discriminate.
Qed.

(* ================================================================== *)
(** ** C5 and C8: what has gone before a start and before a restore *)

Lemma each_after_app P past t1 t2 :
  each_after P past (t1 ++ t2) <->
  each_after P past t1 /\ each_after P (past ++ t1) t2.
Proof.
  revert past. induction t1 as [|e t1 IH]; intros past; simpl.
  - rewrite app_nil_r. tauto.
  - rewrite IH, <- app_assoc. simpl. tauto.
Qed.

Lemma each_after_split P past t pre e post :
  each_after P past t -> t = pre ++ e :: post -> P (past ++ pre) e.
Proof.
  intros H ->. apply each_after_app in H. simpl in H. tauto.
Qed.

Lemma each_after_prints P past lines :
  (forall past' l, P past' (EvPrint l)) ->
  forallb is_print lines = true ->
  each_after P past lines.
Proof.
  intros HP. revert past.
  induction lines as [|[l|d|c rq rs] lines IH]; simpl; intros past H;
    try discriminate; auto.
Qed.

Lemma py_index_nonempty {X} (xs : list X) :
  py_not xs = false -> exists x, py_index xs 0 = Ok x.
Proof. destruct xs as [|x xs]; [discriminate|]. intros _. now exists x. Qed.

Section Branches.
Context {service : Service}.

Lemma basic_usage_example_branches :
  wp basic_usage_example
     (fun o t =>
        each_after start_only_when_empty [] t /\ o <> Err IndexError).
Proof.
  unfold basic_usage_example. wp_run.
  1, 3: cbn [app each_after start_only_when_empty]; repeat split;
        unfold ServiceUnavailable, ApiError; discriminate.
  apply (wp_for_each (fun t => forallb is_print t = true)).
  - reflexivity.
  - intros sandbox t Ht. wp_run. rewrite forallb_app, Ht. reflexivity.
  - intros t Ht.
    assert (Hpast : each_after start_only_when_empty []
                      ([EvPrint [Lit "=== Basic Usage Example ==="];
                        EvPrint [Lit "Listing all VMs:"];
                        EvHttp ListAll (request_of BASE_URL ListAll)
                          (Reply status body)] ++ t)).
    { apply each_after_app. split.
      - cbn [each_after start_only_when_empty]. tauto.
      - apply each_after_prints; [intros; exact I|exact Ht]. }
    destruct (vm_names body) as [|v vs] eqn:Hnames;
      cbn [map py_not py_index nth_error]; wp_run.
    all: cbn [app]; rewrite ?app_nil_r.
    all: split;
      [|unfold ServiceUnavailable, ApiError; discriminate].
    all: try exact Hpast.
    all: change (?a :: ?b :: ?c :: t ++ ?r) with ([a; b; c] ++ t ++ r);
      rewrite app_assoc; apply each_after_app; split; [exact Hpast|].
    all: cbn [each_after start_only_when_empty app].
    all: repeat split.
    all: exists (request_of BASE_URL ListAll), status, body.
    all: repeat split; auto.
    all: cbn [In]; auto 6.
Qed.

End Branches.

(** C5.  [list_all()] gives one handle per VM the listing names, so none
    exactly when it names none; indexing the first element of a sequence
    that is not empty succeeds; [basic_usage_example] never ends in an
    [IndexError]; and whenever it starts a VM, that VM is "example-vm"
    and a listing that named no VM has come back before. *)
Theorem start_only_on_empty_listing :
  forall (service : Service) (s : server),
    (forall m,
        match snd (serve s (request_of (base_url m) ListAll)) with
        | Unreachable => True
        | Reply status body =>
            if is_2xx status then
              exists handles,
                out (list_all m s) = Ok handles /\
                map name handles = vm_names body /\
                (handles = [] <-> vm_names body = [])
            else True
        end) /\
    (forall (xs : list Sandbox),
        py_not xs = false -> exists x, py_index xs 0 = Ok x) /\
    out (basic_usage_example s) <> Err IndexError /\
    (forall pre n req res post,
        trace (basic_usage_example s) =
          pre ++ EvHttp (StartSandbox n) req res :: post ->
        n = "example-vm"%string /\
        exists rq status body,
          In (EvHttp ListAll rq (Reply status body)) pre /\
          is_2xx status = true /\
          vm_names body = []).
Proof.
  intros service s. split; [|split; [|split]].
  - intros m. unfold list_all. rewrite api_then_run. simpl.
    destruct (snd (serve s (request_of (base_url m) ListAll)))
      as [|status body]; [exact I|].
    destruct (is_2xx status); [|exact I].
    eexists. split; [reflexivity|]. split.
    + rewrite map_map. simpl. apply map_id.
    + destruct (vm_names body); simpl; split; intros H;
        try reflexivity; discriminate.
  - intros xs. apply py_index_nonempty.
  - apply (proj1 (basic_usage_example_branches s)).
  - intros pre n req res post Htrace.
    exact (each_after_split start_only_when_empty [] _ pre _ post
             (proj1 (proj1 (basic_usage_example_branches s))) Htrace).
Qed.

Ltac in_past := cbn [In]; repeat first [left; reflexivity | right].

Ltac past_done :=
  lazymatch goal with
  | |- wp _ _ => fail
  | |- _ => idtac
  end;
  cbn [app each_after restore_after_destroy];
  repeat match goal with
         | |- _ /\ _ => split
         | |- True => exact I
         | |- ?x = ?x => reflexivity
         | |- exists _, _ => eexists
         | |- In _ _ => in_past
         | |- is_2xx _ = true => eassumption
         end.

Lemma snapshot_example_restores {service : Service} :
  wp snapshot_example (fun _ t => each_after restore_after_destroy [] t).
Proof. unfold snapshot_example. wp_run; past_done. Qed.

(** C8.  Whenever [snapshot_example] calls [restore], it is for
    "snapshot-example", the name the sandbox was started under, and with
    the very identifier that [snapshot("initial-state")] returned; a
    [destroy()] of that sandbox has succeeded before; and the handle
    [restore] returns bears the name it was given. *)
Theorem restore_uses_snapshot_after_destroy :
  forall (service : Service) (s : server) (pre post : list event)
         (n : string) (id : pyval) (req : request) (res : http_result),
    trace (snapshot_example s) = pre ++ EvHttp (Restore n id) req res :: post ->
    n = "snapshot-example"%string /\
    (exists rq status body,
        In (EvHttp (StartSandbox n) rq (Reply status body)) pre /\
        is_2xx status = true) /\
    (exists rq status,
        In (EvHttp (Snapshot "snapshot-example" "initial-state") rq
              (Reply status id)) pre /\
        is_2xx status = true) /\
    (exists rq status body,
        In (EvHttp (Destroy "snapshot-example") rq (Reply status body)) pre /\
        is_2xx status = true) /\
    (forall m s' handle,
        out (restore m n id s') = Ok handle -> name handle = n).
Proof.
  intros service s pre post n id req res Htrace.
  pose proof (each_after_split restore_after_destroy [] _ pre _ post
                (proj1 (snapshot_example_restores s)) Htrace) as H.
  simpl in H. destruct H as (Hn & Hstart & Hsnap & Hdestroy).
  repeat split; try assumption.
  intros m s' handle. unfold restore. rewrite api_then_run. simpl.
  destruct (snd (serve s' (request_of (base_url m) (Restore n id))))
    as [|status body]; [discriminate|].
  destruct (is_2xx status); [|discriminate].
  intros [= <-]. reflexivity.
Qed.

Lemma restore_uses_snapshot_after_destroy_witness :
  "snapshot-example"%string = "snapshot-example"%string /\
  (exists rq status body,
      In (EvHttp (StartSandbox "snapshot-example") rq (Reply status body))
         (firstn 20 (trace (snapshot_example (service := scripted)
                              happy_script))) /\
      is_2xx status = true) /\
  (exists rq status,
      In (EvHttp (Snapshot "snapshot-example" "initial-state") rq
            (Reply status (PStr "snap-1")))
         (firstn 20 (trace (snapshot_example (service := scripted)
                              happy_script))) /\
      is_2xx status = true) /\
  (exists rq status body,
      In (EvHttp (Destroy "snapshot-example") rq (Reply status body))
         (firstn 20 (trace (snapshot_example (service := scripted)
                              happy_script))) /\
      is_2xx status = true) /\
  (forall m s' handle,
      out (restore (service := scripted) m "snapshot-example"
             (PStr "snap-1") s') = Ok handle ->
      name handle = "snapshot-example"%string).
Proof.
  apply (restore_uses_snapshot_after_destroy scripted happy_script
           (firstn 20 (trace (snapshot_example (service := scripted)
                                happy_script)))
           (skipn 21 (trace (snapshot_example (service := scripted)
                               happy_script)))
           "snapshot-example" (PStr "snap-1")
           (mkRequest POST "http://localhost:7000/vms"
              (Some (PDict [("name"%string, PStr "snapshot-example");
                            ("snapshot"%string, PStr "snap-1")])))
           (Reply 200 PNone)).
  vm_compute. reflexivity.
Defined.

(* ================================================================== *)
(** ** More on the top-level handler *)

Section Handler.
Context {service : Service}.

Lemma message_of_errors r x :
  message_of r = Err x ->
  x = AttributeError \/ x = JSONDecodeError \/ x = TypeError \/
  x = KeyError "error" \/ x = KeyError "message".
Proof.
  unfold message_of, response_json, error_message, py_getitem.
  destruct r as [r|]; [|intros [= <-]; auto].
  destruct (json_body r) as [body|]; [|intros [= <-]; auto].
  destruct body; try (intros [= <-]; auto 6).
  destruct (dict_lookup items "error") as [error|]; [|intros [= <-]; auto 6].
  destruct error; try (intros [= <-]; auto 6).
  destruct (dict_lookup items0 "message"); [discriminate|].
  intros [= <-]; auto 6.
Qed.

Lemma error_message_errors body x :
  error_message body = Err x ->
  x = TypeError \/ x = KeyError "error" \/ x = KeyError "message".
Proof.
  unfold error_message, py_getitem.
  destruct body; try (intros [= <-]; auto).
  destruct (dict_lookup items "error") as [error|]; [|intros [= <-]; auto].
  destruct error; try (intros [= <-]; auto).
  destruct (dict_lookup items0 "message"); [discriminate|].
  intros [= <-]; auto.
Qed.

End Handler.

(** X2.  The handler never talks to the server.  Whatever [func] does and
    however it ends, [wrap_with_error_handling(func)] makes the calls
    [func] made and no other, leaves the server as [func] left it, and
    adds to the trace of [func] at most two printed lines. *)
Theorem wrapper_makes_no_exchange :
  forall (service : Service) (A : Type) (func : M A) (s : server),
    calls (trace (wrap_with_error_handling func s)) = calls (trace (func s)) /\
    srv (wrap_with_error_handling func s) = srv (func s) /\
    exists lines,
      trace (wrap_with_error_handling func s) = trace (func s) ++ lines /\
      forallb is_print lines = true /\
      (List.length lines <= 2)%nat.
Proof.
  intros service A func s. rewrite wrap_run.
  assert (G : forall (o : outcome (option A)) lines,
             forallb is_print lines = true ->
             (List.length lines <= 2)%nat ->
             let r := mkResult o (srv (func s)) (trace (func s) ++ lines) in
             calls (trace r) = calls (trace (func s)) /\
             srv r = srv (func s) /\
             exists lines',
               trace r = trace (func s) ++ lines' /\
               forallb is_print lines' = true /\
               (List.length lines' <= 2)%nat).
  { intros o lines Hp Hl. simpl. split; [|split; [reflexivity|eauto]].
    now rewrite calls_app, (calls_prints lines Hp), app_nil_r. }
  assert (G0 : forall (o : outcome (option A)),
             let r := mkResult o (srv (func s)) (trace (func s)) in
             calls (trace r) = calls (trace (func s)) /\
             srv r = srv (func s) /\
             exists lines',
               trace r = trace (func s) ++ lines' /\
               forallb is_print lines' = true /\
               (List.length lines' <= 2)%nat).
  { intros o. simpl. split; [reflexivity|]. split; [reflexivity|].
    exists []. rewrite app_nil_r. auto. }
  destruct (out (func s)) as [v|e]; [apply G0|].
  destruct e; try (apply G; simpl; auto); try apply G0.
  destruct (message_of resp); [apply G; simpl; auto|apply G0].
Qed.

(** X3.  A [requests.HTTPError] without a structured message makes the
    handler itself fail.  When [func()] raises a [requests.HTTPError] and
    the lookup [e.response.json()['error']['message']] raises, that
    error goes up from [wrap_with_error_handling(func)] (the sibling
    [except Exception] clause does not catch it), nothing has been
    printed, and the error is one of: [AttributeError] (no response),
    a JSON decoding error (body not JSON), [TypeError] (body or
    [error] not a dict), [KeyError('error')], [KeyError('message')]. *)
Theorem wrapper_fails_on_unstructured_error :
  forall (service : Service) (A : Type) (func : M A) (s : server)
         (r : option response) (x : exn),
    out (func s) = Err (HTTPError r) ->
    message_of r = Err x ->
    out (wrap_with_error_handling func s) = Err x /\
    trace (wrap_with_error_handling func s) = trace (func s) /\
    (x = AttributeError \/ x = JSONDecodeError \/ x = TypeError \/
     x = KeyError "error" \/ x = KeyError "message").
Proof.
  intros service A func s r x Hout Hm.
  rewrite wrap_run, Hout, Hm. simpl.
  repeat split. exact (message_of_errors r x Hm).
Qed.

Lemma wrapper_fails_on_unstructured_error_witness :
  out (wrap_with_error_handling (service := scripted) basic_usage_example
         [Reply 502 (PDict [("detail"%string, PStr "Bad Gateway")])]) =
    Err (KeyError "error") /\
  trace (wrap_with_error_handling (service := scripted) basic_usage_example
           [Reply 502 (PDict [("detail"%string, PStr "Bad Gateway")])]) =
    trace (basic_usage_example (service := scripted)
             [Reply 502 (PDict [("detail"%string, PStr "Bad Gateway")])]) /\
  (KeyError "error" = AttributeError \/ KeyError "error" = JSONDecodeError \/
   KeyError "error" = TypeError \/
   KeyError "error" = KeyError "error" \/
   KeyError "error" = KeyError "message").
Proof.
  apply (wrapper_fails_on_unstructured_error scripted unit
           basic_usage_example
           [Reply 502 (PDict [("detail"%string, PStr "Bad Gateway")])]
           (Some (mkResponse 502
                    (Some (PDict [("detail"%string, PStr "Bad Gateway")]))))
           (KeyError "error"));
    vm_compute; reflexivity.
Defined.

Lemma wrap_raises_otherwise_witness :
  trace (wrap_with_error_handling (service := scripted)
           (raise (A := unit) KeyboardInterrupt) []) =
    trace (raise (service := scripted) (A := unit) KeyboardInterrupt []) /\
  srv (wrap_with_error_handling (service := scripted)
         (raise (A := unit) KeyboardInterrupt) []) =
    srv (raise (service := scripted) (A := unit) KeyboardInterrupt []) /\
  ((is_Exception KeyboardInterrupt = false /\
    out (wrap_with_error_handling (service := scripted)
           (raise (A := unit) KeyboardInterrupt) []) =
      Err KeyboardInterrupt) \/
   (exists r x,
       KeyboardInterrupt = HTTPError r /\ message_of r = Err x /\
       out (wrap_with_error_handling (service := scripted)
              (raise (A := unit) KeyboardInterrupt) []) = Err x)).
Proof.
  apply (wrap_raises_otherwise scripted unit (raise KeyboardInterrupt) []
           KeyboardInterrupt).
  - reflexivity.
  - intros H. inversion H as [e Hexc Hhttp|r body message Hj Hm].
    discriminate.
Defined.

(* ================================================================== *)
(** ** The loops of the examples *)

Section Loops.
Context {service : Service}.

Lemma replay_prints s lines :
  forallb is_print lines = true -> replay s lines = s.
Proof.
  induction lines as [|[l|d|c rq rs] lines IH]; simpl; intros H;
    try discriminate; auto.
Qed.

Lemma for_each_lines_run {X} (xs : list X) (line : X -> list piece) s :
  for_each xs (fun x => print (line x)) s =
    mkResult (Ok tt) s (map (fun x => EvPrint (line x)) xs).
Proof.
  induction xs as [|x xs IH]; [reflexivity|].
  simpl. unfold bind. simpl. now rewrite IH.
Qed.

Lemma wp_for_each_lines {X} (xs : list X) (line : X -> list piece) post :
  post (Ok tt) (map (fun x => EvPrint (line x)) xs) ->
  wp (for_each xs (fun x => print (line x))) post.
Proof.
  intros H s. rewrite for_each_lines_run. simpl. split; [exact H|].
  symmetry. apply replay_prints. clear H.
  induction xs; simpl; auto.
Qed.

Lemma py_getitem_errors v k e :
  py_getitem v k = Err e -> e = TypeError \/ exists k', e = KeyError k'.
Proof.
  unfold py_getitem. destruct v; try (intros [= <-]; auto).
  destruct (dict_lookup items k); [discriminate|].
  intros [= <-]. eauto.
Qed.

Lemma print_port_forward_run pf s :
  if complete_forward pf then
    exists line, print_port_forward pf s = mkResult (Ok tt) s [EvPrint line]
  else
    exists e,
      print_port_forward pf s = mkResult (Err e) s [] /\
      (e = TypeError \/ exists k, e = KeyError k).
Proof.
  unfold complete_forward, has_key, print_port_forward, bind, lift.
  destruct (py_getitem pf "host_port") as [h|e] eqn:Hh; simpl;
    [|eexists; split; [reflexivity|exact (py_getitem_errors _ _ _ Hh)]].
  destruct (py_getitem pf "guest_port") as [g|e] eqn:Hg; simpl;
    [|eexists; split; [reflexivity|exact (py_getitem_errors _ _ _ Hg)]].
  destruct (py_getitem pf "description") as [d|e] eqn:Hd; simpl;
    [|eexists; split; [reflexivity|exact (py_getitem_errors _ _ _ Hd)]].
  eexists. reflexivity.
Qed.

Lemma port_forwards_run good rest s :
  forallb complete_forward good = true ->
  exists lines,
    List.length lines = List.length good /\
    forallb is_print lines = true /\
    for_each (good ++ rest) print_port_forward s =
      mkResult (out (for_each rest print_port_forward s))
               (srv (for_each rest print_port_forward s))
               (lines ++ trace (for_each rest print_port_forward s)).
Proof.
  induction good as [|pf good IH]; simpl; intros H.
  - exists []. repeat split. now destruct (for_each rest print_port_forward s).
  - apply andb_prop in H. destruct H as [Hpf Hgood].
    destruct (IH Hgood) as (lines & Hlen & Hprint & Hrun).
    pose proof (print_port_forward_run pf s) as Hone. rewrite Hpf in Hone.
    destruct Hone as [line Hone].
    exists (EvPrint line :: lines). simpl. rewrite Hlen, Hprint.
    repeat split. unfold bind. rewrite Hone. simpl. now rewrite Hrun.
Qed.

End Loops.

(** X4.  The listing of port forwards stops at the first incomplete
    entry.  The loop over [details["port_forwards"]] never talks to the
    server and only prints.  When every entry has the keys [host_port],
    [guest_port] and [description] it prints one line per entry and
    ends normally; otherwise it prints the lines of the entries before
    the first incomplete one and raises there, a [TypeError] (the entry
    is no dict) or a [KeyError]. *)
Theorem port_forward_loop_stops_at_first_incomplete :
  forall (service : Service) (pfs : list pyval) (s : server),
    srv (for_each pfs print_port_forward s) = s /\
    forallb is_print (trace (for_each pfs print_port_forward s)) = true /\
    (forallb complete_forward pfs = true ->
     out (for_each pfs print_port_forward s) = Ok tt /\
     List.length (trace (for_each pfs print_port_forward s)) =
       List.length pfs) /\
    (forall good bad rest,
        pfs = good ++ bad :: rest ->
        forallb complete_forward good = true ->
        complete_forward bad = false ->
        List.length (trace (for_each pfs print_port_forward s)) =
          List.length good /\
        exists e,
          out (for_each pfs print_port_forward s) = Err e /\
          (e = TypeError \/ exists k, e = KeyError k)).
Proof.
  intros service pfs s.
  assert (Hbad : forall bad rest,
             complete_forward bad = false ->
             exists e,
               for_each (bad :: rest) print_port_forward s =
                 mkResult (Err e) s [] /\
               (e = TypeError \/ exists k, e = KeyError k)).
  { intros bad rest Hb. pose proof (print_port_forward_run bad s) as H.
    rewrite Hb in H. destruct H as (e & Hrun & He).
    exists e. split; [|exact He]. simpl. unfold bind. now rewrite Hrun. }
  assert (Hquiet : srv (for_each pfs print_port_forward s) = s /\
                   forallb is_print
                     (trace (for_each pfs print_port_forward s)) = true).
  { induction pfs as [|pf pfs IH]; [split; reflexivity|].
    simpl. unfold bind.
    pose proof (print_port_forward_run pf s) as H.
    destruct (complete_forward pf).
    - destruct H as [line ->]. simpl. exact IH.
    - destruct H as (e & -> & _). split; reflexivity. }
  split; [apply Hquiet|]. split; [apply Hquiet|]. split.
  - intros Hall.
    destruct (port_forwards_run pfs [] s Hall) as (lines & Hlen & _ & Hrun).
    rewrite app_nil_r in Hrun. rewrite Hrun. simpl.
    rewrite app_nil_r. auto.
  - intros good bad rest -> Hgood Hb.
    destruct (port_forwards_run good (bad :: rest) s Hgood)
      as (lines & Hlen & _ & Hrun).
    destruct (Hbad bad rest Hb) as (e & Hrun' & He).
    rewrite Hrun, Hrun'. simpl. rewrite app_nil_r. eauto.
Qed.

(** X5.  What [basic_usage_example] does, in full.  It prints its two
    header lines and makes the listing call.  When the listing fails it
    stops there.  Otherwise it prints one line per listed VM, in the
    order of the listing; with at least one VM listed it does nothing
    more, and with none its only further call is the start of
    "example-vm". *)
Theorem basic_usage_example_shape :
  forall (service : Service) (s : server),
  exists res tail,
    trace (basic_usage_example s) =
      EvPrint [Lit "=== Basic Usage Example ==="] ::
      EvPrint [Lit "Listing all VMs:"] ::
      EvHttp ListAll (request_of BASE_URL ListAll) res :: tail /\
    after_listing res tail.
Proof.
  intros service s.
  assert (H : wp basic_usage_example
                (fun _ t =>
                   exists res tail,
                     t = EvPrint [Lit "=== Basic Usage Example ==="] ::
                         EvPrint [Lit "Listing all VMs:"] ::
                         EvHttp ListAll (request_of BASE_URL ListAll) res ::
                         tail /\
                     after_listing res tail)).
  { unfold basic_usage_example. wp_run.
    - do 2 eexists. split; [reflexivity|]. reflexivity.
    - apply wp_for_each_lines. rewrite map_map. cbn [name].
      destruct (vm_names body) as [|v vs] eqn:Hnames;
        cbn [map py_not py_index nth_error]; wp_run.
      all: do 2 eexists; split; [reflexivity|].
      all: unfold after_listing; rewrite H2xx, Hnames.
      all: eexists; split; [cbn [map app]; reflexivity|].
      all: reflexivity.
    - do 2 eexists. split; [reflexivity|].
      unfold after_listing. now rewrite H2xx. }
  exact (proj1 (H s)).
Qed.

(* ================================================================== *)
(** ** How the examples end *)

Lemma succeeded_prints lines :
  forallb is_print lines = true -> forallb succeeded lines = true.
Proof.
  induction lines as [|[l|d|c rq rs] lines IH]; simpl; intros H;
    try discriminate; auto.
Qed.

(** Brings a goal about [calls], [succeeded] or [started] of a symbolic
    trace to normal form. *)
Ltac ends_done :=
  lazymatch goal with
  | |- wp _ _ => fail
  | |- _ => idtac
  end;
  cbn [app]; rewrite ?app_nil_r, <- ?app_assoc;
  repeat
    (progress
       (cbn [app calls forallb existsb succeeded started andb orb
             lookup_error];
        repeat match goal with
               | H : is_2xx ?x = _ |- context [is_2xx ?x] => rewrite H
               | H : forallb is_print ?t = true |- context [calls (?t ++ ?r)] =>
                   rewrite (calls_app t r), (calls_prints t H)
               | H : forallb is_print ?t = true |- context [calls ?t] =>
                   rewrite (calls_prints t H)
               | H : forallb is_print ?t = true
                 |- context [forallb succeeded (?t ++ ?r)] =>
                   rewrite (forallb_app succeeded t r),
                           (succeeded_prints t H)
               | H : forallb is_print ?t = true
                 |- context [forallb succeeded ?t] =>
                   rewrite (succeeded_prints t H)
               end)).

Ltac ends_solve :=
  ends_done;
  unfold ServiceUnavailable, ApiError; cbn [lookup_error];
  first [ now (intros; discriminate)
        | now (intros; split; reflexivity)
        | now (split; reflexivity)
        | reflexivity
        | idtac ].

Lemma py_get_errors v k d e : py_get v k d = Err e -> e = AttributeError.
Proof.
  unfold py_get. destruct v; try (now intros [= <-]).
  destruct (dict_lookup items k); discriminate.
Qed.

Lemma py_getitem_key v k key : py_getitem v k = Err (KeyError key) -> key = k.
Proof.
  unfold py_getitem. destruct v; try discriminate.
  destruct (dict_lookup items k); [discriminate|]. now intros [= <-].
Qed.

(** Closes the part on [KeyError] of an ending of [snapshot_example]. *)
Ltac key_done :=
  let key := fresh "key" in
  intros key ->;
  match goal with
  | H : py_get _ _ _ = Err (KeyError _) |- _ =>
      apply py_get_errors in H; discriminate H
  | H : py_getitem _ _ = Err (KeyError _) |- _ =>
      apply py_getitem_key in H; subst; split; reflexivity
  end.

Ltac prefix_done k :=
  intros _; split; [reflexivity|];
  exists PNone, k; split; [auto 6|]; split; [reflexivity|key_done].

Ltac in_trace :=
  cbn [In app];
  repeat first [left; reflexivity | right | (apply in_or_app; right)].

(** Closes a normal ending of [snapshot_example]: the calls are those of
    the script, and the identifier is the one the snapshot gave. *)
Ltac snapshot_given :=
  split; [reflexivity|];
  eexists; split; [reflexivity|];
  do 2 eexists; split; [in_trace|assumption].

Section Endings.
Context {service : Service}.

Lemma vm_management_example_ends :
  wp vm_management_example
     (fun o t =>
        match o with
        | Ok _ =>
            forallb succeeded t = true /\
            calls t = [StartSandbox "lifecycle-example";
                       List_ "lifecycle-example";
                       Destroy "lifecycle-example"]
        | Err e =>
            lookup_error e = true ->
            existsb started t = true /\
            calls t = [StartSandbox "lifecycle-example";
                       List_ "lifecycle-example"]
        end).
Proof.
  unfold vm_management_example. wp_run; try ends_solve.
  apply (wp_for_each (fun t => forallb is_print t = true)).
  - reflexivity.
  - intros pf t Ht. wp_run; try ends_solve.
    rewrite forallb_app, Ht. reflexivity.
  - intros t Ht. wp_run; ends_solve.
Qed.

Lemma snapshot_example_ends :
  wp snapshot_example
     (fun o t =>
        match o with
        | Ok _ =>
            forallb succeeded t = true /\
            exists id,
              calls t = snapshot_calls id /\
              exists req status,
                In (EvHttp (Snapshot "snapshot-example" "initial-state") req
                      (Reply status id)) t /\
                is_2xx status = true
        | Err e =>
            lookup_error e = true ->
            existsb started t = true /\
            exists id k,
              (k = 2 \/ k = 4 \/ k = 5 \/ k = 8)%nat /\
              calls t = firstn k (snapshot_calls id) /\
              (forall key, e = KeyError key ->
                           key = "output"%string /\ k = 8%nat)
        end).
Proof.
  unfold snapshot_example. wp_run; try ends_solve.
  1-2: snapshot_given.
  - intros _. split; [reflexivity|].
    eexists _, 8%nat. split; [auto 6|]. split; [reflexivity|key_done].
  - prefix_done 5%nat.
  - prefix_done 4%nat.
  - prefix_done 2%nat.
Qed.

Lemma context_manager_example_ends :
  wp context_manager_example
     (fun o t =>
        match o with
        | Ok _ =>
            forallb succeeded t = true /\
            calls t =
              [StartSandbox "auto-cleanup-example";
               RunCmd "auto-cleanup-example"
                 "echo 'Hello from sandbox context manager'";
               Destroy "auto-cleanup-example"]
        | Err _ => True
        end).
Proof. unfold context_manager_example. wp_run; try ends_solve; exact I. Qed.

Lemma basic_usage_example_ends :
  wp basic_usage_example
     (fun o t =>
        match o with
        | Ok _ => forallb succeeded t = true
        | Err _ => True
        end).
Proof.
  unfold basic_usage_example. wp_run; try ends_solve; try exact I.
  apply (wp_for_each (fun t => forallb is_print t = true)).
  - reflexivity.
  - intros sandbox t Ht. wp_run. rewrite forallb_app, Ht. reflexivity.
  - intros t Ht. wp_run; ends_solve; exact I.
Qed.

End Endings.

(** X6.  An example returns normally only when every exchange it made
    was answered within 2xx: none of the four swallows a failed call. *)
Theorem examples_return_only_after_success :
  forall (service : Service) (example : M unit) (s : server),
    In example examples ->
    out (example s) = Ok tt ->
    forallb succeeded (trace (example s)) = true.
Proof.
  intros service example s Hin Hout.
  destruct Hin as [<-|[<-|[<-|[<-|[]]]]].
  - pose proof (proj1 (basic_usage_example_ends s)) as H.
    rewrite Hout in H. exact H.
  - pose proof (proj1 (vm_management_example_ends s)) as H.
    rewrite Hout in H. apply H.
  - pose proof (proj1 (snapshot_example_ends s)) as H.
    rewrite Hout in H. apply H.
  - pose proof (proj1 (context_manager_example_ends s)) as H.
    rewrite Hout in H. apply H.
Qed.

Lemma examples_return_only_after_success_witness :
  forallb succeeded
    (trace (snapshot_example (service := scripted) happy_script)) = true.
Proof.
  apply (examples_return_only_after_success scripted snapshot_example
           happy_script).
  - right. right. left. reflexivity.
  - vm_compute. reflexivity.
Defined.

(** X7.  On a normal return nothing was skipped.  When
    [vm_management_example], [snapshot_example] or
    [context_manager_example] returns normally, its calls were exactly
    the calls of the script, each once and in the order of the script;
    [snapshot_example] restored with the identifier that its call of
    [snapshot("initial-state")] had been answered with. *)
Theorem normal_return_made_every_call :
  forall (service : Service) (s : server),
    match out (vm_management_example s) with
    | Ok _ =>
        calls (trace (vm_management_example s)) =
          [StartSandbox "lifecycle-example"; List_ "lifecycle-example";
           Destroy "lifecycle-example"]
    | Err _ => True
    end /\
    match out (snapshot_example s) with
    | Ok _ =>
        exists id,
          calls (trace (snapshot_example s)) = snapshot_calls id /\
          exists req status,
            In (EvHttp (Snapshot "snapshot-example" "initial-state") req
                  (Reply status id)) (trace (snapshot_example s)) /\
            is_2xx status = true
    | Err _ => True
    end /\
    match out (context_manager_example s) with
    | Ok _ =>
        calls (trace (context_manager_example s)) =
          [StartSandbox "auto-cleanup-example";
           RunCmd "auto-cleanup-example"
             "echo 'Hello from sandbox context manager'";
           Destroy "auto-cleanup-example"]
    | Err _ => True
    end.
Proof.
  intros service s.
  pose proof (proj1 (vm_management_example_ends s)) as Hvm.
  pose proof (proj1 (snapshot_example_ends s)) as Hsnap.
  pose proof (proj1 (context_manager_example_ends s)) as Hctx.
  cbv beta in Hvm, Hsnap, Hctx.
  destruct (out (vm_management_example s));
    destruct (out (snapshot_example s));
    destruct (out (context_manager_example s)); intuition.
Qed.

(** X8.  [vm_management_example] has no cleanup on its error paths.  When
    it ends in an error of one of its own lookups on the details (the
    details are no dict, [port_forwards] cannot be walked, an entry
    lacks a key), the VM was started and the calls made are the start
    and the details: no [destroy()] went out for it. *)
Theorem vm_management_example_leaks_on_lookup_error :
  forall (service : Service) (s : server) (e : exn),
    out (vm_management_example s) = Err e ->
    lookup_error e = true ->
    existsb started (trace (vm_management_example s)) = true /\
    calls (trace (vm_management_example s)) =
      [StartSandbox "lifecycle-example"; List_ "lifecycle-example"] /\
    destroys "lifecycle-example" (trace (vm_management_example s)) = 0%nat.
Proof.
  intros service s e Hout He.
  pose proof (proj1 (vm_management_example_ends s)) as H.
  rewrite Hout in H. destruct (H He) as [Hs Hc].
  repeat split; try assumption.
  unfold destroys. rewrite Hc. reflexivity.
Qed.

Lemma vm_management_example_leaks_on_lookup_error_witness :
  existsb started
    (trace (vm_management_example (service := scripted)
              [ok_reply PNone; ok_reply (PStr "running")])) = true /\
  calls (trace (vm_management_example (service := scripted)
                  [ok_reply PNone; ok_reply (PStr "running")])) =
    [StartSandbox "lifecycle-example"; List_ "lifecycle-example"] /\
  destroys "lifecycle-example"
    (trace (vm_management_example (service := scripted)
              [ok_reply PNone; ok_reply (PStr "running")])) = 0%nat.
Proof.
  apply (vm_management_example_leaks_on_lookup_error scripted
           [ok_reply PNone; ok_reply (PStr "running")] AttributeError).
  - vm_compute. reflexivity.
  - reflexivity.
Defined.

(** X9.  Where [snapshot_example] can fail in a lookup.  When it ends in
    an error of one of its own lookups, the sandbox was started and the
    run stopped right after one of its four [run_cmd] calls (after 2, 4,
    5 or 8 calls of the script), so that the sandbox then alive is not
    destroyed.  A [KeyError] can only be [KeyError('output')] and only
    arise after the restore, at [result["output"]]: before, a missing
    [output] is read as the empty string. *)
Theorem snapshot_example_stops_after_run_cmd :
  forall (service : Service) (s : server) (e : exn),
    out (snapshot_example s) = Err e ->
    lookup_error e = true ->
    existsb started (trace (snapshot_example s)) = true /\
    exists id k,
      (k = 2 \/ k = 4 \/ k = 5 \/ k = 8)%nat /\
      calls (trace (snapshot_example s)) = firstn k (snapshot_calls id) /\
      (forall key, e = KeyError key -> key = "output"%string /\ k = 8%nat).
Proof.
  intros service s e Hout He.
  pose proof (proj1 (snapshot_example_ends s)) as H.
  rewrite Hout in H. exact (H He).
Qed.

Lemma snapshot_example_stops_after_run_cmd_witness :
  existsb started
    (trace (snapshot_example (service := scripted)
              (firstn 7 happy_script ++ [ok_reply (PDict [])]))) = true /\
  exists id k,
    (k = 2 \/ k = 4 \/ k = 5 \/ k = 8)%nat /\
    calls (trace (snapshot_example (service := scripted)
                    (firstn 7 happy_script ++ [ok_reply (PDict [])]))) =
      firstn k (snapshot_calls id) /\
    (forall key, KeyError "output" = KeyError key ->
                 key = "output"%string /\ k = 8%nat).
Proof.
  apply (snapshot_example_stops_after_run_cmd scripted
           (firstn 7 happy_script ++ [ok_reply (PDict [])])
           (KeyError "output")).
  - vm_compute. reflexivity.
  - reflexivity.
Defined.

(* ================================================================== *)
(** ** The whole script *)

Lemma py_contains_errors k v e : py_contains k v = Err e -> e = TypeError.
Proof.
  unfold py_contains. destruct v; try (now intros [= <-]); try discriminate.
  - destruct (String.index 0 k s); discriminate.
  - destruct (dict_lookup items k); discriminate.
Qed.

Lemma py_iter_errors v e : py_iter v = Err e -> e = TypeError.
Proof. unfold py_iter. destruct v; try (now intros [= <-]); discriminate. Qed.

Lemma py_index_errors {X} (xs : list X) i e :
  py_index xs i = Err e -> e = IndexError.
Proof.
  unfold py_index. destruct (nth_error xs i); [discriminate|].
  now intros [= <-].
Qed.

Lemma handler_failure_incl t t' e :
  incl t t' -> handler_failure t e -> handler_failure t' e.
Proof.
  intros Hincl (c & req & status & body & Hin & H2 & Hm).
  exists c, req, status, body. auto.
Qed.

(** Closes an error ending of an example against [example_error]. *)
Ltac error_done :=
  lazymatch goal with
  | |- wp _ _ => fail
  | |- _ => idtac
  end;
  cbn [app]; rewrite ?app_nil_r, <- ?app_assoc; cbn [app];
  try exact I;
  try match goal with
      | H : py_get _ _ _ = Err _ |- _ => apply py_get_errors in H; subst
      | H : py_contains _ _ = Err _ |- _ =>
          apply py_contains_errors in H; subst
      | H : py_iter _ = Err _ |- _ => apply py_iter_errors in H; subst
      | H : py_index _ _ = Err _ |- _ => apply py_index_errors in H; subst
      | H : py_getitem _ _ = Err _ |- _ =>
          apply py_getitem_errors in H; destruct H as [->|[? ->]]
      end;
  try exact I;
  try (unfold ServiceUnavailable; exact I);
  try (unfold ApiError; cbn [example_error];
       do 4 eexists; split; [reflexivity|]; split; [in_trace|assumption]).

Section Script.
Context {service : Service}.

Lemma basic_usage_example_errors :
  wp basic_usage_example
     (fun o t => match o with Ok _ => True | Err e => example_error t e end).
Proof.
  unfold basic_usage_example. wp_run; try error_done.
  apply (wp_for_each (fun t => forallb is_print t = true)).
  - reflexivity.
  - intros sandbox t Ht. wp_run. rewrite forallb_app, Ht. reflexivity.
  - intros t Ht. wp_run; error_done.
Qed.

Lemma vm_management_example_errors :
  wp vm_management_example
     (fun o t => match o with Ok _ => True | Err e => example_error t e end).
Proof.
  unfold vm_management_example. wp_run; try error_done.
  apply (wp_for_each (fun t => forallb is_print t = true)).
  - reflexivity.
  - intros pf t Ht. wp_run; try error_done.
    rewrite forallb_app, Ht. reflexivity.
  - intros t Ht. wp_run; error_done.
Qed.

Lemma snapshot_example_errors :
  wp snapshot_example
     (fun o t => match o with Ok _ => True | Err e => example_error t e end).
Proof. unfold snapshot_example. wp_run; error_done. Qed.

Lemma context_manager_example_errors :
  wp context_manager_example
     (fun o t => match o with Ok _ => True | Err e => example_error t e end).
Proof. unfold context_manager_example. wp_run; error_done. Qed.

End Script.

Section Script2.
Context {service : Service}.
Local Open Scope py_scope.

Lemma wrapped_example_fails_in_handler (func : M unit) :
  wp func
     (fun o t => match o with Ok _ => True | Err e => example_error t e end) ->
  wp (wrap_with_error_handling func)
     (fun o t => match o with Ok _ => True | Err e => handler_failure t e end).
Proof.
  intros H. apply wp_wrap. eapply wp_mono; [exact H|].
  intros o t Ht. destruct o as [v|e]; [exact I|].
  destruct e; cbn [is_HTTPError is_Exception example_error] in *;
    try exact I; try contradiction.
  destruct Ht as (c & req & status & body & -> & Hin & H2).
  intros s. rewrite on_http_error_run.
  change (message_of (Some (mkResponse status (Some body))))
    with (error_message body).
  destruct (error_message body) as [message|x] eqn:Hm; simpl.
  - split; [exact I|reflexivity].
  - split; [|reflexivity].
    exists c, req, status, body. rewrite app_nil_r. auto.
Qed.

Lemma main_fails_in_handler :
  wp main
     (fun o t => match o with Ok _ => True | Err e => handler_failure t e end).
Proof.
  unfold main.
  repeat
    (lazymatch goal with
     | |- wp (bind (wrap_with_error_handling ?f) _) _ =>
         apply wp_bind; eapply wp_mono;
         [ apply wrapped_example_fails_in_handler;
           lazymatch f with
           | basic_usage_example => exact basic_usage_example_errors
           | vm_management_example => exact vm_management_example_errors
           | snapshot_example => exact snapshot_example_errors
           | context_manager_example => exact context_manager_example_errors
           end
         | let o := fresh "o" in
           let t := fresh "t" in
           let H := fresh "H" in
           intros o t H; destruct o;
           [ | eapply handler_failure_incl; [|exact H];
               repeat apply incl_appr; apply incl_refl ] ]
     | |- _ => wp_step
     end).
  exact I.
Qed.

End Script2.

Lemma conventional_incl t t' :
  incl t t' -> conventional t' -> conventional t.
Proof.
  intros Hincl H c req status body Hin. apply (H c req status body).
  apply Hincl, Hin.
Qed.

Section Stages.
Context {service : Service}.
Local Open Scope py_scope.

Lemma print_run line s :
  out (print line s) = Ok tt /\
  srv (print line s) = s /\
  trace (print line s) = [EvPrint line].
Proof. repeat split. Qed.

Lemma print_then_out {B} line (k : M B) s :
  out ((print line ;; k) s) = out (k s).
Proof. reflexivity. Qed.

Lemma print_then_srv {B} line (k : M B) s :
  srv ((print line ;; k) s) = srv (k s).
Proof. reflexivity. Qed.

Lemma print_then_trace {B} line (k : M B) s :
  trace ((print line ;; k) s) = EvPrint line :: trace (k s).
Proof. reflexivity. Qed.

(** One stage of the script: the line that announces an example, the
    wrapped example, and the rest [k] of the script.  Under the error
    convention the wrapped example returns, and [k] goes on from the
    state the example left. *)
Lemma stage_run line (func : M unit) (k : M unit) s :
  wp func
     (fun o t => match o with Ok _ => True | Err e => example_error t e end) ->
  conventional
    (trace ((print line ;; wrap_with_error_handling func ;; k) s)) ->
  out ((print line ;; wrap_with_error_handling func ;; k) s) =
    out (k (srv (wrap_with_error_handling func s))) /\
  srv ((print line ;; wrap_with_error_handling func ;; k) s) =
    srv (k (srv (wrap_with_error_handling func s))) /\
  trace ((print line ;; wrap_with_error_handling func ;; k) s) =
    EvPrint line :: trace (wrap_with_error_handling func s) ++
    trace (k (srv (wrap_with_error_handling func s))) /\
  conventional (trace (k (srv (wrap_with_error_handling func s)))).
Proof.
  intros Hfunc.
  rewrite print_then_out, print_then_srv, !print_then_trace.
  pose proof (proj1 (wrapped_example_fails_in_handler func Hfunc s)) as Hr.
  cbv beta in Hr.
  unfold bind. cbv beta zeta.
  generalize dependent (wrap_with_error_handling func s).
  intros r Hr.
  destruct (out r) as [v|e]; cbn [out srv trace]; intros Hconv.
  - split; [reflexivity|]. split; [reflexivity|]. split; [reflexivity|].
    revert Hconv. apply conventional_incl.
    apply incl_tl, incl_appr, incl_refl.
  - exfalso.
    destruct Hr as (c & req & status & body & Hin & H2 & Hm).
    destruct (Hconv c req status body (or_intror Hin) H2) as [message Hmsg].
    congruence.
Qed.

End Stages.

(** Runs one stage of the script under the convention [H], by rewriting
    only: the examples are never unfolded. *)
Ltac stage_done lem H :=
  let Eo := fresh "Eo" in
  let Es := fresh "Es" in
  let Et := fresh "Et" in
  let H' := fresh "H" in
  destruct (stage_run _ _ _ _ lem H) as (Eo & Es & Et & H');
  rewrite Eo, Es, Et; clear Eo Es Et H; rename H' into H.

(** X10.  Under the error convention the script runs to its end.  When
    every answer outside 2xx that came back during a run of the script
    has a message under [error.message], no exception leaves the
    [__main__] block and all four wrapped examples are run, in the order
    of the script and each from the state of the server the one before
    left: the trace is the four lines of the banner, then for each
    example the line that announces it and the whole trace of the wrapped
    example, then the closing line; the server is left as the last
    example left it. *)
Theorem script_completes_under_error_convention :
  forall (service : Service) (s : server),
    conventional (trace (main s)) ->
    let r1 := wrap_with_error_handling basic_usage_example s in
    let r2 := wrap_with_error_handling vm_management_example (srv r1) in
    let r3 := wrap_with_error_handling snapshot_example (srv r2) in
    let r4 := wrap_with_error_handling context_manager_example (srv r3) in
    out (main s) = Ok tt /\
    srv (main s) = srv r4 /\
    trace (main s) =
      EvPrint [Lit "Py-Arrakis SDK Cookbook"] ::
      EvPrint [Lit "======================"] ::
      EvPrint [Lit "This script demonstrates how to use the py-arrakis SDK to interact with Arrakis VMs."] ::
      EvPrint [Lit "Make sure the Arrakis server is running at"; Lit " ";
               Fmt (PStr BASE_URL)] ::
      EvPrint [Lit "Running Basic Usage Example..."] :: trace r1 ++
      EvPrint [Lit "Running VM Management Example..."] :: trace r2 ++
      EvPrint [Lit "Running Snapshot Example..."] :: trace r3 ++
      EvPrint [Lit "Running Context Manager Example..."] :: trace r4 ++
      [EvPrint [Lit "All examples completed."]].
Proof.
  intros service s Hconv. cbv zeta.
  unfold main, say in Hconv |- *.
  do 4 rewrite print_then_out, print_then_srv, print_then_trace.
  do 4 rewrite print_then_trace in Hconv.
  apply (conventional_incl _ _ (incl_tl _ (incl_tl _ (incl_tl _
           (incl_tl _ (incl_refl _)))))) in Hconv.
  stage_done basic_usage_example_errors Hconv.
  stage_done vm_management_example_errors Hconv.
  stage_done snapshot_example_errors Hconv.
  stage_done context_manager_example_errors Hconv.
  destruct (print_run [Lit "All examples completed."]
              (srv (wrap_with_error_handling context_manager_example
                 (srv (wrap_with_error_handling snapshot_example
                    (srv (wrap_with_error_handling vm_management_example
                       (srv (wrap_with_error_handling basic_usage_example
                               s))))))))) as (Eo & Es & Et).
  rewrite Eo, Es, Et.
  split; [reflexivity|]. split; reflexivity.
Qed.

Lemma script_completes_under_error_convention_witness :
  out (main (service := scripted) [error_reply 503 "busy"]) = Ok tt.
Proof.
  refine (proj1 (script_completes_under_error_convention scripted
                   [error_reply 503 "busy"] _)).
  intros c req status body Hin H2.
  vm_compute in Hin.
  repeat (destruct Hin as [Hin|Hin]; try discriminate Hin);
    try contradiction.
  injection Hin as <- <- <- <-.
  exists (PStr "busy"). reflexivity.
Defined.

(** X11.  What can leave the script.  An exception that leaves the
    [__main__] block was raised inside the handler, by the lookup of
    [error.message] in an answer outside 2xx that came back during the
    run; it is a [TypeError], [KeyError('error')] or
    [KeyError('message')], never one of the two errors of the SDK. *)
Theorem script_fails_only_in_handler :
  forall (service : Service) (s : server) (e : exn),
    out (main s) = Err e ->
    handler_failure (trace (main s)) e /\
    (e = TypeError \/ e = KeyError "error" \/ e = KeyError "message").
Proof.
  intros service s e Hout.
  pose proof (proj1 (main_fails_in_handler s)) as H.
  rewrite Hout in H. split; [exact H|].
  destruct H as (c & req & status & body & Hin & H2 & Hm).
  exact (error_message_errors body e Hm).
Qed.

Lemma script_fails_only_in_handler_witness :
  handler_failure
    (trace (main (service := scripted) [Reply 502 (PStr "Bad Gateway")]))
    TypeError /\
  (TypeError = TypeError \/ TypeError = KeyError "error" \/
   TypeError = KeyError "message").
Proof.
  apply (script_fails_only_in_handler scripted
           [Reply 502 (PStr "Bad Gateway")] TypeError).
  vm_compute. reflexivity.
Defined.

Lemma destroys_prints n lines :
  forallb is_print lines = true -> destroys n lines = 0%nat.
Proof. intros H. unfold destroys. now rewrite (calls_prints lines H). Qed.

Ltac no_destroy_done :=
  lazymatch goal with
  | |- wp _ _ => fail
  | |- _ => idtac
  end;
  unfold destroys; ends_done;
  cbn [filter is_destroy_of];
  repeat match goal with
         | H : String.eqb ?a ?n = false |- context [String.eqb ?a ?n] =>
             rewrite H
         end;
  try reflexivity.

Section Script3.
Context {service : Service}.
Local Open Scope py_scope.

Lemma wp_bind_kept {A B} (inv : list event -> Prop) (m : M A) (f : A -> M B) :
  (forall t1 t2, inv t1 -> inv t2 -> inv (t1 ++ t2)) ->
  wp m (fun _ t => inv t) ->
  (forall a, wp (f a) (fun _ t => inv t)) ->
  wp (bind m f) (fun _ t => inv t).
Proof.
  intros Happ Hm Hf. apply wp_bind. eapply wp_mono; [exact Hm|].
  intros o t Ht. destruct o as [a|e]; [|exact Ht].
  eapply wp_mono; [apply Hf|]. intros o2 t2 Ht2. now apply Happ.
Qed.

Lemma wp_wrap_kept {A} (inv : list event -> Prop) (func : M A) :
  (forall t1 t2, inv t1 -> inv t2 -> inv (t1 ++ t2)) ->
  (forall lines, forallb is_print lines = true -> inv lines) ->
  wp func (fun _ t => inv t) ->
  wp (wrap_with_error_handling func) (fun _ t => inv t).
Proof.
  intros Happ Hlines H. apply wp_wrap. eapply wp_mono; [exact H|].
  intros o t Ht. destruct o as [v|e]; [exact Ht|].
  destruct e; cbn [is_HTTPError is_Exception]; try exact Ht;
    try (apply Happ; [exact Ht|apply Hlines; reflexivity]).
  intros s. rewrite on_http_error_run.
  destruct (message_of resp); simpl; (split; [|reflexivity]).
  - apply Happ; [exact Ht|apply Hlines; reflexivity].
  - now rewrite app_nil_r.
Qed.

Lemma vm_management_example_spares (n : string) :
  String.eqb "lifecycle-example" n = false ->
  wp vm_management_example (fun _ t => destroys n t = 0%nat).
Proof.
  intros Hn. unfold vm_management_example. wp_run; try no_destroy_done.
  apply (wp_for_each (fun t => forallb is_print t = true)).
  - reflexivity.
  - intros pf t Ht. wp_run; try no_destroy_done.
    rewrite forallb_app, Ht. reflexivity.
  - intros t Ht. wp_run; no_destroy_done.
Qed.

Lemma snapshot_example_spares (n : string) :
  String.eqb "snapshot-example" n = false ->
  wp snapshot_example (fun _ t => destroys n t = 0%nat).
Proof. intros Hn. unfold snapshot_example. wp_run; no_destroy_done. Qed.

Lemma context_manager_example_spares (n : string) :
  String.eqb "auto-cleanup-example" n = false ->
  wp context_manager_example (fun _ t => destroys n t = 0%nat).
Proof. intros Hn. unfold context_manager_example. wp_run; no_destroy_done. Qed.

Lemma basic_usage_example_spares (n : string) :
  wp basic_usage_example (fun _ t => destroys n t = 0%nat).
Proof.
  eapply wp_mono; [exact basic_usage_example_calls|].
  intros o t [H|H]; unfold destroys; rewrite H; reflexivity.
Qed.

Lemma main_spares (n : string) :
  String.eqb "lifecycle-example" n = false ->
  String.eqb "snapshot-example" n = false ->
  String.eqb "auto-cleanup-example" n = false ->
  wp main (fun _ t => destroys n t = 0%nat).
Proof.
  intros H1 H2 H3. unfold main.
  assert (Happ : forall t1 t2,
             destroys n t1 = 0%nat -> destroys n t2 = 0%nat ->
             destroys n (t1 ++ t2) = 0%nat).
  { intros t1 t2 Ha Hb. now rewrite destroys_app, Ha, Hb. }
  repeat
    (lazymatch goal with
     | |- wp (bind _ _) _ => apply (wp_bind_kept _ _ _ Happ); [|intros _]
     | |- wp (say _) _ => apply wp_emit_print; reflexivity
     | |- wp (print _) _ => apply wp_emit_print; reflexivity
     | |- wp (wrap_with_error_handling ?f) _ =>
         apply (wp_wrap_kept _ _ Happ (destroys_prints n));
         lazymatch f with
         | basic_usage_example => exact (basic_usage_example_spares n)
         | vm_management_example => exact (vm_management_example_spares n H1)
         | snapshot_example => exact (snapshot_example_spares n H2)
         | context_manager_example =>
             exact (context_manager_example_spares n H3)
         end
     end).
Qed.

End Script3.

(** X12.  The script only ever destroys the VMs of three of its examples.
    For a name other than "lifecycle-example", "snapshot-example" and
    "auto-cleanup-example", no run of the whole script sends a
    [destroy()]; so the "example-vm" that [basic_usage_example] starts is
    never cleaned up, by any of the examples that follow it. *)
Theorem script_destroys_only_its_own :
  forall (service : Service) (s : server) (n : string),
    n <> "lifecycle-example"%string ->
    n <> "snapshot-example"%string ->
    n <> "auto-cleanup-example"%string ->
    destroys n (trace (main s)) = 0%nat.
Proof.
  intros service s n H1 H2 H3.
  apply (proj1 (main_spares n
                  (proj2 (String.eqb_neq _ _) (not_eq_sym H1))
                  (proj2 (String.eqb_neq _ _) (not_eq_sym H2))
                  (proj2 (String.eqb_neq _ _) (not_eq_sym H3)) s)).
Qed.

Lemma script_destroys_only_its_own_witness :
  destroys "example-vm"
    (trace (main (service := scripted)
              [ok_reply (PList []); ok_reply PNone])) = 0%nat.
Proof.
  apply (script_destroys_only_its_own scripted
           [ok_reply (PList []); ok_reply PNone] "example-vm");
    discriminate.
Defined.
